(** * FTA.py: keyword categorisation and dashboard aggregation

    A shallow embedding of the computational part of [FTA.py] (a Streamlit
    dashboard on top of Firestore and pandas), and the properties its
    specification states about it.

    Conventions of the embedding.
    - Text is [string] (one character per [ascii]); [str.lower] is the
      ASCII case mapping, characters outside [A-Z] are left alone.
    - A Python [dict] literal iterated with [.items()] is the association
      list of its entries in the order they are written.
    - A money amount is an exact number of hundredths ([Z]): the form's
      [min_value=0.01] is [1], and [rupees n] is [n] whole units.  This
      fixes which rows a figure adds up, not the value the code computes
      for it: the code adds binary64 floats, and [Module Binary64] is
      that arithmetic (numpy's pairwise sum, pandas' compensated group
      sums) on the same documents.
    - A pandas frame is the list of its rows together with whether it has
      columns; [pd.DataFrame()] has neither.  Selecting a column of a
      frame without columns raises [KeyError] and [list.index] of an
      absent element raises [ValueError], so these steps run in the
      error monad [result]. *)

From Stdlib Require Import ZArith List Bool Ascii String Permutation Sorted Lia.
From Stdlib Require Import Floats.PrimFloat.
Import ListNotations.

Local Open Scope string_scope.
Local Open Scope list_scope.
Local Open Scope Z_scope.

(* ================================================================== *)
(** * Part I: definitions *)
(* ================================================================== *)

(** ** Errors *)

(** The exceptions the modelled code can raise: [df[name]] on a frame
    without that column, and [list.index] of an absent element. *)
Inductive error : Type :=
| KeyError (column : string)
| ValueError.

Inductive result (A : Type) : Type :=
| Ok (a : A)
| Raise (e : error).
Arguments Ok {A} a.
Arguments Raise {A} e.

Definition bind {A B : Type} (c : result A) (k : A -> result B) : result B :=
  match c with
  | Ok a => k a
  | Raise e => Raise e
  end.

Notation "x <- c ;; k" := (bind c (fun x => k))
  (at level 61, c at next level, right associativity).

(** ** Python strings *)

Module PyStr.

Definition is_upper (c : ascii) : bool :=
  let n := N_of_ascii c in ((65 <=? n) && (n <=? 90))%N.

Definition is_lower (c : ascii) : bool :=
  let n := N_of_ascii c in ((97 <=? n) && (n <=? 122))%N.

Definition lower_char (c : ascii) : ascii :=
  if is_upper c then ascii_of_N (N_of_ascii c + 32) else c.

Definition upper_char (c : ascii) : ascii :=
  if is_lower c then ascii_of_N (N_of_ascii c - 32) else c.

(** [s.lower()] *)
Fixpoint lower (s : string) : string :=
  match s with
  | EmptyString => EmptyString
  | String c rest => String (lower_char c) (lower rest)
  end.

(** [s.upper()] *)
Fixpoint upper (s : string) : string :=
  match s with
  | EmptyString => EmptyString
  | String c rest => String (upper_char c) (upper rest)
  end.

(** [term in desc]: does [term] occur in [desc] as a contiguous run of
    characters?  Tried at every position of [desc], the end included,
    so the empty term occurs in every string. *)
Fixpoint str_in (term desc : string) : bool :=
  String.prefix term desc
  || match desc with
     | EmptyString => false
     | String _ rest => str_in term rest
     end.

(** The relation [str_in] decides. *)
Definition occurs_in (term desc : string) : Prop :=
  exists before after, desc = (before ++ term ++ after)%string.

(** Two characters that differ at most in the case of an ASCII letter. *)
Definition same_letter (a b : ascii) : Prop :=
  b = a \/ b = lower_char a \/ b = upper_char a.

(** [t] is a case variant of [s]: same length, and character by
    character the same letter. *)
Inductive case_variant : string -> string -> Prop :=
| cv_empty : case_variant EmptyString EmptyString
| cv_char a b s t :
    same_letter a b -> case_variant s t ->
    case_variant (String a s) (String b t).

(** [xs.index(x)]: position of the first element equal to [x], or
    [ValueError] when there is none. *)
Fixpoint index (xs : list string) (x : string) : result nat :=
  match xs with
  | [] => Raise ValueError
  | y :: rest =>
      if String.eqb y x then Ok O
      else i <- index rest x ;; Ok (S i)
  end.

End PyStr.

(** ** Keyword-based categorisation *)

(** The [keywords] dictionary of [suggest_category], in source order. *)
Definition keywords : list (string * list string) :=
  [ ("Food", ["restaurant"; "cafe"; "groceries"; "supermarket"; "food"; "eat"]);
    ("Transport", ["gas"; "fuel"; "bus"; "train"; "uber"; "cab"]);
    ("Shopping", ["store"; "online"; "amazon"; "mall"; "clothes"]);
    ("Bills", ["rent"; "utility"; "phone bill"; "electricity"]);
    ("Entertainment", ["movie"; "cinema"; "concert"; "game"]);
    ("Trip", ["flight"; "hotel"; "travel"; "vacation"]);
    ("Education/Fees", ["fees"; "tuition"; "school"; "college"; "university"]);
    ("Services", ["service"; "repair"; "instrument"; "maintenance"; "repare"; "charge"]) ].

(** [any(term in desc for term in terms)] *)
Definition any_term_in (desc : string) (terms : list string) : bool :=
  existsb (fun term => PyStr.str_in term desc) terms.

(** What [any_term_in] decides: some keyword of [terms] occurs in [desc]. *)
Definition matches (desc : string) (terms : list string) : Prop :=
  exists term, In term terms /\ PyStr.occurs_in term desc.

(** The [for category, terms in ...items()] loop with its early [return],
    falling through to [return "Other"]. *)
Fixpoint scan_keywords (desc : string) (items : list (string * list string)) : string :=
  match items with
  | [] => "Other"
  | (category, terms) :: rest =>
      if any_term_in desc terms then category else scan_keywords desc rest
  end.

Definition suggest_category (description : string) : string :=
  let desc := PyStr.lower description in
  scan_keywords desc keywords.

(** The [categories] list offered by the transaction form. *)
Definition categories : list string :=
  ["Food"; "Transport"; "Shopping"; "Bills"; "Entertainment"; "Trip";
   "Education/Fees"; "Services"; "Other"].

(** [categories.index(suggested_cat)], the default of the category box. *)
Definition suggested_index (description : string) : result nat :=
  PyStr.index categories (suggest_category description).

(** ** Records and calendar dates *)

(** A calendar date, as picked in [st.date_input]; it is stored as its ISO
    text and read back with [pd.to_datetime]. *)
Record date : Type := mkDate { year : Z; month : Z; day : Z }.

(** A document of the [transactions] collection ([add_transaction]). *)
Module Txn.
Record t : Type := mk
  { date : date; description : string; amount : Z; category : string }.
End Txn.

(** A document of the [lending_loan] collection ([add_lending_loan]). *)
Module Lend.
Record t : Type := mk
  { date : date; person : string; amount : Z; type : string }.
End Lend.

(** [rupees n]: [n] whole currency units, in hundredths. *)
Definition rupees (n : Z) : Z := 100 * n.

Module Calendar.

Definition digit (n : Z) : ascii := ascii_of_N (48 + Z.to_N (n mod 10)).

(** [%m], [%d]: two digits. *)
Definition pad2 (n : Z) : string :=
  String (digit (n / 10)) (String (digit n) EmptyString).

(** [%Y]: four digits. *)
Definition pad4 (n : Z) : string :=
  String (digit (n / 1000)) (String (digit (n / 100))
    (String (digit (n / 10)) (String (digit n) EmptyString))).

(** [str(date)], also the text of a day inside a period label. *)
Definition iso (d : date) : string :=
  pad4 (year d) ++ "-" ++ pad2 (month d) ++ "-" ++ pad2 (day d).

(** [.dt.to_period('M').astype(str)] *)
Definition month_label (d : date) : string :=
  pad4 (year d) ++ "-" ++ pad2 (month d).

(** Days since 1970-01-01 in the proleptic Gregorian calendar. *)
Definition days_from_civil (d : date) : Z :=
  let y := if month d <=? 2 then year d - 1 else year d in
  let era := y / 400 in
  let yoe := y - era * 400 in
  let mp := if month d >? 2 then month d - 3 else month d + 9 in
  let doy := (153 * mp + 2) / 5 + day d - 1 in
  let doe := yoe * 365 + yoe / 4 - yoe / 100 + doy in
  era * 146097 + doe - 719468.

Definition civil_from_days (z : Z) : date :=
  let z := z + 719468 in
  let era := z / 146097 in
  let doe := z - era * 146097 in
  let yoe := (doe - doe / 1460 + doe / 36524 - doe / 146096) / 365 in
  let doy := doe - (365 * yoe + yoe / 4 - yoe / 100) in
  let mp := (5 * doy + 2) / 153 in
  let d := doy - (153 * mp + 2) / 5 + 1 in
  let m := if mp <? 10 then mp + 3 else mp - 9 in
  let y := yoe + era * 400 in
  mkDate (if m <=? 2 then y + 1 else y) m d.

(** Day of the week, Monday = 0 (1970-01-01 was a Thursday). *)
Definition weekday (d : date) : Z := (days_from_civil d + 3) mod 7.

(** [.dt.to_period('W').astype(str)]: pandas' weekly period ends on
    Sunday; its text is the Monday and the Sunday joined by a slash. *)
Definition week_label (d : date) : string :=
  let monday := days_from_civil d - weekday d in
  iso (civil_from_days monday) ++ "/" ++ iso (civil_from_days (monday + 6)).

Definition date_eqb (a b : date) : bool :=
  (year a =? year b) && (month a =? month b) && (day a =? day b).

(** Chronological order of [datetime.date] values. *)
Definition date_leb (a b : date) : bool :=
  (year a <? year b)
  || ((year a =? year b)
      && ((month a <? month b)
          || ((month a =? month b) && (day a <=? day b)))).

End Calendar.

(** ** The pandas operations the dashboard uses *)

Module Pandas.

(** A frame: its rows, and whether it has columns at all.
    [pd.DataFrame()] and [pd.DataFrame([])] have neither. *)
Record frame (R : Type) : Type := mkFrame
  { has_columns : bool; rows : list R }.
Arguments mkFrame {R} has_columns rows.
Arguments has_columns {R} f.
Arguments rows {R} f.

(** [pd.DataFrame(data)] for a list of documents that all carry the same
    keys. *)
Definition DataFrame {R : Type} (data : list R) : frame R :=
  match data with
  | [] => mkFrame false []
  | _ :: _ => mkFrame true data
  end.

(** [df.empty] *)
Definition empty {R : Type} (df : frame R) : bool :=
  negb (has_columns df) || match rows df with [] => true | _ :: _ => false end.

(** [df[name]]: the column, or [KeyError] when the frame has none. *)
Definition col {R X : Type} (name : string) (field : R -> X) (df : frame R)
  : result (list X) :=
  if has_columns df then Ok (map field (rows df)) else Raise (KeyError name).

(** [df[mask]] for a boolean mask computed from column [name]. *)
Definition where_ {R X : Type} (name : string) (field : R -> X)
    (keep : X -> bool) (df : frame R) : result (frame R) :=
  _ <- col name field df ;;
  Ok (mkFrame (has_columns df) (filter (fun r => keep (field r)) (rows df))).

(** [Series.sum()]: accumulation from zero, in row order. *)
Definition sum (xs : list Z) : Z := fold_left Z.add xs 0.

(** [Series.isin(values)], on one cell. *)
Definition isin (values : list string) (x : string) : bool :=
  existsb (String.eqb x) values.

Section GroupBy.
Context {K : Type}.
Variable eqb : K -> K -> bool.
Variable leb : K -> K -> bool.

(** Add [v] to the running total of group [k], opening the group at
    the end when [k] is seen for the first time. *)
Fixpoint accumulate (k : K) (v : Z) (groups : list (K * Z)) : list (K * Z) :=
  match groups with
  | [] => [(k, v)]
  | (k', s) :: rest =>
      if eqb k' k then (k', s + v) :: rest
      else (k', s) :: accumulate k v rest
  end.

(** One loop step: the cell goes to the total of its key. *)
Definition step (groups : list (K * Z)) (cell : K * Z) : list (K * Z) :=
  accumulate (fst cell) (snd cell) groups.

(** One total per distinct key, keys in order of first appearance. *)
Definition group_totals (cells : list (K * Z)) : list (K * Z) :=
  fold_left step cells [].

Fixpoint insert_row (r : K * Z) (sorted : list (K * Z)) : list (K * Z) :=
  match sorted with
  | [] => [r]
  | r' :: rest =>
      if leb (fst r) (fst r') then r :: sorted else r' :: insert_row r rest
  end.

(** The groups in increasing key order ([sort=True], the default). *)
Definition sort_rows (groups : list (K * Z)) : list (K * Z) :=
  fold_right insert_row [] groups.

(** [groupby(key)[value].sum().reset_index()] on the cells
    [(key, value)] of the rows. *)
Definition groupby_sum_cells (cells : list (K * Z)) : list (K * Z) :=
  sort_rows (group_totals cells).

(** For the statements about groupings: the first total listed for
    [k], whether [k] is a key of the cells, and the cells of key [k]
    added up. *)
Fixpoint assoc (k : K) (groups : list (K * Z)) : option Z :=
  match groups with
  | [] => None
  | (k', s) :: rest => if eqb k' k then Some s else assoc k rest
  end.

Definition has_key (k : K) (cells : list (K * Z)) : bool :=
  existsb (fun c => eqb (fst c) k) cells.

Definition total_of (k : K) (cells : list (K * Z)) : Z :=
  sum (map snd (filter (fun c => eqb (fst c) k) cells)).

(** [df.groupby(key)[value].sum().reset_index()] *)
Definition groupby_sum {R : Type} (name : string) (key : R -> K)
    (value : R -> Z) (df : frame R) : result (list (K * Z)) :=
  ks <- col name key df ;;
  vs <- col "amount" value df ;;
  Ok (groupby_sum_cells (combine ks vs)).

End GroupBy.

Definition pair_eqb (a b : string * string) : bool :=
  String.eqb (fst a) (fst b) && String.eqb (snd a) (snd b).

(** Order of the two-column key [['month', 'type']]. *)
Definition pair_leb (a b : string * string) : bool :=
  String.ltb (fst a) (fst b)
  || (String.eqb (fst a) (fst b) && String.leb (snd a) (snd b)).

End Pandas.

(** ** Firestore reads *)

Import Pandas.

(** [get_transactions_df], on the documents of the user's collection. *)
Definition get_transactions_df (docs : list Txn.t) : frame Txn.t :=
  let data := docs in
  match data with
  | [] => DataFrame []
  | _ :: _ => DataFrame data
  end.

(** [get_lending_loan_df] *)
Definition get_lending_loan_df (docs : list Lend.t) : frame Lend.t :=
  let data := docs in
  match data with
  | [] => DataFrame []
  | _ :: _ => DataFrame data
  end.

(** ** The dashboard computations of [main_app] *)

(** First row: the overall summary. *)

Definition total_expenses (transactions_df : frame Txn.t) : result Z :=
  if negb (empty transactions_df)
  then amounts <- col "amount" Txn.amount transactions_df ;; Ok (sum amounts)
  else Ok 0.

(** [lending_df[lending_df['type'] == ty]['amount'].sum() if not
    lending_df.empty else 0] *)
Definition total_by_type (ty : string) (lending_df : frame Lend.t) : result Z :=
  if negb (empty lending_df)
  then
    selected <- where_ "type" Lend.type (fun t => String.eqb t ty) lending_df ;;
    amounts <- col "amount" Lend.amount selected ;;
    Ok (sum amounts)
  else Ok 0.

Definition total_lent : frame Lend.t -> result Z := total_by_type "Lent".
Definition total_loan : frame Lend.t -> result Z := total_by_type "Loan".

(** Second row: expense trends. *)

Definition daily_expenses (transactions_df : frame Txn.t) : result (list (date * Z)) :=
  groupby_sum Calendar.date_eqb Calendar.date_leb "date"
    Txn.date Txn.amount transactions_df.

Definition weekly_expenses (transactions_df : frame Txn.t) : result (list (string * Z)) :=
  groupby_sum String.eqb String.leb "week"
    (fun r => Calendar.week_label (Txn.date r)) Txn.amount transactions_df.

Definition monthly_expenses (transactions_df : frame Txn.t) : result (list (string * Z)) :=
  groupby_sum String.eqb String.leb "month"
    (fun r => Calendar.month_label (Txn.date r)) Txn.amount transactions_df.

Definition category_expenses (transactions_df : frame Txn.t) : result (list (string * Z)) :=
  groupby_sum String.eqb String.leb "category"
    Txn.category Txn.amount transactions_df.

(** A place on the page that shows either a chart of the given data or
    an [st.info] notice. *)
Inductive panel (A : Type) : Type :=
| Chart (data : A)
| Info (message : string).
Arguments Chart {A} data.
Arguments Info {A} message.

(** The four charts of the trends block. *)
Record trends : Type := mkTrends
  { daily : list (date * Z);
    weekly : list (string * Z);
    monthly : list (string * Z);
    by_category : list (string * Z) }.

Definition expense_trends (transactions_df : frame Txn.t) : result (panel trends) :=
  if negb (empty transactions_df)
  then
    d <- daily_expenses transactions_df ;;
    w <- weekly_expenses transactions_df ;;
    m <- monthly_expenses transactions_df ;;
    c <- category_expenses transactions_df ;;
    Ok (Chart (mkTrends d w m c))
  else Ok (Info "No transactions to show trends.").

(** Third row: the lending chart. *)
Definition monthly_lending_loan (lending_df : frame Lend.t)
  : result (panel (list ((string * string) * Z))) :=
  if negb (empty lending_df)
  then
    g <- groupby_sum pair_eqb pair_leb "month"
           (fun r => (Calendar.month_label (Lend.date r), Lend.type r))
           Lend.amount lending_df ;;
    Ok (Chart g)
  else Ok (Info "No lending or loan records to display.").

(** Fourth row: good against bad expenses. *)

Definition bad_categories : list string := ["Entertainment"; "Food"; "Trip"].

Definition bad_expenses_df (transactions_df : frame Txn.t) : result (frame Txn.t) :=
  if negb (empty transactions_df)
  then where_ "category" Txn.category (isin bad_categories) transactions_df
  else Ok (DataFrame []).

Definition good_expenses_df (transactions_df : frame Txn.t) : result (frame Txn.t) :=
  if negb (empty transactions_df)
  then where_ "category" Txn.category
         (fun c => negb (isin bad_categories c)) transactions_df
  else Ok (DataFrame []).

(** The figure printed as "Total amount you could have saved". *)
Definition total_bad_expenses (transactions_df : frame Txn.t) : result Z :=
  if negb (empty transactions_df)
  then
    bad <- bad_expenses_df transactions_df ;;
    amounts <- col "amount" Txn.amount bad ;;
    Ok (sum amounts)
  else Ok 0.

(** The two slices [(good_expenses_amount, bad_expenses_amount)] of the
    donut chart. *)
Definition goodbad_summary (transactions_df : frame Txn.t) : result (panel (Z * Z)) :=
  if negb (empty transactions_df)
  then
    good <- good_expenses_df transactions_df ;;
    bad <- bad_expenses_df transactions_df ;;
    good_amounts <- col "amount" Txn.amount good ;;
    bad_amounts <- col "amount" Txn.amount bad ;;
    Ok (Chart (sum good_amounts, sum bad_amounts))
  else Ok (Info "No expense data to analyze.").

(** What one run of [main_app] puts on the page: the three overall
    totals, the preselected position of the category box, the trend
    charts, the lending chart, the could-have-saved figure and the two
    slices of the donut chart. *)
Record dashboard : Type := mkDashboard
  { overall_expenses : Z;
    overall_lent : Z;
    overall_loan : Z;
    category_index : nat;
    trend_charts : panel trends;
    lending_chart : panel (list ((string * string) * Z));
    could_have_saved : Z;
    goodbad_chart : panel (Z * Z) }.

(** The documents Firestore holds for one user. *)
Record store : Type := mkStore
  { transactions : list Txn.t; lending_loan : list Lend.t }.

(** One run of the script body of [main_app], in source order, on the
    documents of the store and the text currently in the form's
    description box.  What a submit click writes is [submit_transaction]
    and [submit_lending] below. *)
Definition main_app (db : store) (description : string) : result dashboard :=
  let transactions_df := get_transactions_df (transactions db) in
  let lending_df := get_lending_loan_df (lending_loan db) in
  e <- total_expenses transactions_df ;;
  lent <- total_lent lending_df ;;
  loan <- total_loan lending_df ;;
  i <- suggested_index description ;;
  t <- expense_trends transactions_df ;;
  let lending_df := get_lending_loan_df (lending_loan db) in
  l <- monthly_lending_loan lending_df ;;
  b <- total_bad_expenses transactions_df ;;
  g <- goodbad_summary transactions_df ;;
  Ok (mkDashboard e lent loan i t l b g).

(** ** The two forms *)

(** The widget values of the transaction form at a submit click. *)
Record transaction_form : Type := mkTransactionForm
  { transaction_date : date;
    transaction_type : string;
    amount_input : Z;
    description : string;
    category : string }.

(** What the widgets guarantee about their values: the type is one of the
    two options, the number is not below [min_value], the category is one
    of the options of its box. *)
Definition transaction_widgets (f : transaction_form) : Prop :=
  In (transaction_type f) ["Expense"; "Income"]
  /\ 1 <= amount_input f
  /\ In (category f) categories.

(** Truth value of a Python string. *)
Definition nonempty (s : string) : bool :=
  match s with EmptyString => false | String _ _ => true end.

(** The [if submitted:] block: the document handed to [add_transaction],
    or [None] when the form shows its error message instead. *)
Definition submit_transaction (f : transaction_form) : option Txn.t :=
  if nonempty (description f) && negb (amount_input f =? 0)
  then
    let amount :=
      if String.eqb (transaction_type f) "Income"
      then amount_input f else - amount_input f in
    Some (Txn.mk (transaction_date f) (description f) amount (category f))
  else None.

Record lending_form : Type := mkLendingForm
  { lending_date : date;
    person : string;
    loan_amount : Z;
    loan_type : string }.

Definition lending_widgets (f : lending_form) : Prop :=
  1 <= loan_amount f /\ In (loan_type f) ["Lent"; "Loan"].

(** The [if loan_submitted:] block. *)
Definition submit_lending (f : lending_form) : option Lend.t :=
  if nonempty (person f) && negb (loan_amount f =? 0)
  then Some (Lend.mk (lending_date f) (person f) (loan_amount f) (loan_type f))
  else None.

(** [add_transaction] and [add_lending_loan]: one more document in the
    collection. *)
Definition add_transaction (db : store) (doc : Txn.t) : store :=
  mkStore (transactions db ++ [doc]) (lending_loan db).

Definition add_lending_loan (db : store) (doc : Lend.t) : store :=
  mkStore (transactions db) (lending_loan db ++ [doc]).

(** The stores the two forms can build: [submits db db'] when [db'] is
    [db] after some submit clicks, each writing its document. *)
Inductive submits (db : store) : store -> Prop :=
| submits_nothing : submits db db
| submits_transaction (db' : store) (f : transaction_form) (r : Txn.t) :
    submits db db' ->
    transaction_widgets f ->
    submit_transaction f = Some r ->
    submits db (add_transaction db' r)
| submits_lending (db' : store) (f : lending_form) (r : Lend.t) :
    submits db db' ->
    lending_widgets f ->
    submit_lending f = Some r ->
    submits db (add_lending_loan db' r).

(** ** Vocabulary of the statements *)

(** The invariants of the two kinds of record. *)
Definition transaction_ok (r : Txn.t) : Prop :=
  Txn.amount r <> 0
  /\ 1 <= Z.abs (Txn.amount r)
  /\ In (Txn.category r) categories.

Definition lending_ok (r : Lend.t) : Prop := 0 < Lend.amount r.

(** A date [pd.to_datetime] accepts and prints with a four-digit year. *)
Definition calendar_date (d : date) : Prop :=
  1000 <= year d <= 9999 /\ 1 <= month d <= 12 /\ 1 <= day d <= 31.

Definition same_month (a b : date) : bool :=
  (year a =? year b) && (month a =? month b).

(** The signed amounts of the transactions dated in the month of [d],
    added up. *)
Definition month_total (d : date) (docs : list Txn.t) : Z :=
  sum (map Txn.amount (filter (fun r => same_month (Txn.date r) d) docs)).

(** The amounts of the lending records of type [ty], added up record by
    record. *)
Fixpoint lending_total (ty : string) (records : list Lend.t) : Z :=
  match records with
  | [] => 0
  | r :: rest =>
      if String.eqb (Lend.type r) ty
      then Lend.amount r + lending_total ty rest
      else lending_total ty rest
  end.

(** The magnitude of the expenses (negative amounts) booked under one of
    [bad], added up: the amount that could have been saved. *)
Fixpoint expense_magnitudes (bad : list string) (records : list Txn.t) : Z :=
  match records with
  | [] => 0
  | r :: rest =>
      if isin bad (Txn.category r) && (Txn.amount r <? 0)
      then - Txn.amount r + expense_magnitudes bad rest
      else expense_magnitudes bad rest
  end.

(** ** Binary64 accumulation *)

(** Python floats and pandas' [float64] columns are IEEE 754 binary64
    numbers; [PrimFloat] is the same format with the same rounding.
    This module is the arithmetic the code runs: [Series.sum()] is
    numpy's reduction of the column, a group-by sum is pandas' running
    sum with compensation. *)
Module Binary64.

(** Additions in row order, from [start]. *)
Definition chain (start : float) (xs : list float) : float :=
  fold_left PrimFloat.add xs start.

(** The eight partial sums of numpy's unrolled loop. *)
Record lanes : Type := mkLanes
  { r0 : float; r1 : float; r2 : float; r3 : float;
    r4 : float; r5 : float; r6 : float; r7 : float }.

(** While eight more rows are left, each goes to its own partial sum. *)
Fixpoint add_blocks (r : lanes) (xs : list float) : lanes * list float :=
  match xs with
  | a0 :: a1 :: a2 :: a3 :: a4 :: a5 :: a6 :: a7 :: rest =>
      add_blocks
        (mkLanes (r0 r + a0) (r1 r + a1) (r2 r + a2) (r3 r + a3)
                 (r4 r + a4) (r5 r + a5) (r6 r + a6) (r7 r + a7))
        rest
  | _ => (r, xs)
  end%float.

(** One block of at most 128 rows: a plain chain below eight rows;
    otherwise eight partial sums, added up in pairs, then the rows left
    over. *)
Definition unrolled (xs : list float) : float :=
  match xs with
  | a0 :: a1 :: a2 :: a3 :: a4 :: a5 :: a6 :: a7 :: rest =>
      let (r, left_over) := add_blocks (mkLanes a0 a1 a2 a3 a4 a5 a6 a7) rest in
      chain (((r0 r + r1 r) + (r2 r + r3 r)) + ((r4 r + r5 r) + (r6 r + r7 r)))
        left_over
  | _ => chain 0 xs
  end%float.

(** numpy's pairwise summation: more than 128 rows are split in two
    halves, the first a multiple of eight rows long. *)
Fixpoint pairwise_sum (fuel : nat) (xs : list float) : float :=
  let n := List.length xs in
  if (n <=? 128)%nat then unrolled xs
  else
    match fuel with
    | O => unrolled xs
    | S fuel' =>
        let n2 := (n / 2 - (n / 2) mod 8)%nat in
        (pairwise_sum fuel' (firstn n2 xs) + pairwise_sum fuel' (skipn n2 xs))%float
    end.

(** [Series.sum()] of a float column: the reduction starts from zero and
    adds the pairwise sum of the rows. *)
Definition sum (xs : list float) : float :=
  (0 + pairwise_sum (List.length xs) xs)%float.

(** The float a two-decimal amount of [k] hundredths is read as: the
    binary64 number nearest to [k / 100]. *)
Fixpoint of_pos (p : positive) : float :=
  match p with
  | xH => 1
  | xO q => 2 * of_pos q
  | xI q => 2 * of_pos q + 1
  end%float.

(** [float(k)] for an integer [k]; exact below [2^53]. *)
Definition of_Z (k : Z) : float :=
  match k with
  | Z0 => 0
  | Zpos p => of_pos p
  | Zneg p => - of_pos p
  end%float.

Definition hundredths (k : Z) : float := (of_Z k / 100)%float.


(** One step of a group's running sum in [groupby(...).sum()]: the
    running sum and the compensation for the bits the last additions
    lost. *)
Definition kahan_step (state : float * float) (val : float) : float * float :=
  let (sumx, compensation) := state in
  let y := (val - compensation)%float in
  let t := (sumx + y)%float in
  let c := (t - sumx - y)%float in
  (t, if PrimFloat.is_nan c then 0%float else c).

Fixpoint accumulate (k : string) (v : float)
    (groups : list (string * (float * float))) : list (string * (float * float)) :=
  match groups with
  | [] => [(k, kahan_step (0%float, 0%float) v)]
  | (k', state) :: rest =>
      if String.eqb k' k then (k', kahan_step state v) :: rest
      else (k', state) :: accumulate k v rest
  end.

Fixpoint insert_row (r : string * float) (sorted : list (string * float))
  : list (string * float) :=
  match sorted with
  | [] => [r]
  | r' :: rest =>
      if String.leb (fst r) (fst r') then r :: sorted else r' :: insert_row r rest
  end.

(** [groupby(key)['amount'].sum().reset_index()] on float cells with a
    text key: one running sum per key, rows in key order. *)
Definition groupby_sum_cells (cells : list (string * float)) : list (string * float) :=
  fold_right insert_row []
    (map (fun g => (fst g, fst (snd g)))
       (fold_left (fun groups cell => accumulate (fst cell) (snd cell) groups)
          cells [])).

(** The amount column of the documents, as the floats the code holds. *)
Definition amounts (docs : list Txn.t) : list float :=
  map (fun r => hundredths (Txn.amount r)) docs.

(** [total_expenses], [category_expenses] and the two slices of
    [goodbad_summary] of [main_app], for a collection that is not
    empty. *)
Definition total_expenses (docs : list Txn.t) : float := sum (amounts docs).

Definition category_expenses (docs : list Txn.t) : list (string * float) :=
  groupby_sum_cells (map (fun r => (Txn.category r, hundredths (Txn.amount r))) docs).

End Binary64.

(** ** The examples of the specification *)

Definition example_split : list Txn.t :=
  [ Txn.mk (mkDate 2024 1 1) "a" (rupees (-100)) "Food";
    Txn.mk (mkDate 2024 1 1) "b" (rupees (-50)) "Bills";
    Txn.mk (mkDate 2024 1 1) "c" (rupees 200) "Other" ].

Definition example_months : list Txn.t :=
  [ Txn.mk (mkDate 2024 1 1) "a" (rupees (-20)) "Food";
    Txn.mk (mkDate 2024 1 2) "b" (rupees (-30)) "Food";
    Txn.mk (mkDate 2024 2 1) "c" (rupees (-10)) "Transport" ].


(** The smallest expense the transaction form accepts. *)
Definition example_form : transaction_form :=
  mkTransactionForm (mkDate 2024 1 1) "Expense" 1 "tea at the cafe" "Food".

Definition example_lending : list Lend.t :=
  [ Lend.mk (mkDate 2024 1 1) "A" (rupees 100) "Lent";
    Lend.mk (mkDate 2024 1 1) "B" (rupees 50) "Loan" ].

(** ** One Firestore for all users *)





(** ** Sessions and sign-in *)

(** What a call of the authentication service can raise, as far as the
    [except] clauses of [login_page] tell exceptions apart. *)
Inductive auth_error : Type :=
| FirebaseError
| AuthValueError
| OtherException.

Inductive outcome (A : Type) : Type :=
| Returns (a : A)
| Raises (e : auth_error).
Arguments Returns {A} a.
Arguments Raises {A} e.

(** [st.session_state], as far as the script uses it: each of the keys
    ['logged_in'] and ['user_id'] is absent ([None]) or holds a value;
    the value of ['user_id'] is a user id or Python's [None]. *)
Record session_state : Type := mkSession
  { logged_in : option bool; user_id : option (option string) }.

Definition fresh_session : session_state := mkSession None None.

(** [get_current_user_id]: [st.session_state.get('user_id')]. *)
Definition get_current_user_id (s : session_state) : option string :=
  match user_id s with
  | Some v => v
  | None => None
  end.

(** What the user did on the login page since the last script run. *)
Inductive click : Type :=
| NoClick
| LoginClick (email password : string)
| CreateAccountClick (signup_email signup_password : string).

Inductive message : Type :=
| LoginFailed
| InvalidEmailOrPassword
| AccountCreated
| SignUpFailed.

(** How one run of the script ends: a page is on screen, [st.rerun()]
    asked for another run, or an exception went uncaught. *)
Inductive script_end : Type :=
| ShowsDashboard (user : option string)
| ShowsLogin (shown : option message)
| RerunRequested
| Uncaught (e : auth_error).

Section Auth.

(** The authentication service: its state, the lookup of a user id by
    e-mail and the creation of an account. *)
Variable auth : Type.
Variable get_user_by_email : auth -> string -> outcome string.
Variable create_user : auth -> string -> string -> auth * outcome string.

Definition login_page (a : auth) (s : session_state) (c : click)
  : auth * session_state * script_end :=
  match c with
  | NoClick => (a, s, ShowsLogin None)
  | LoginClick email password =>
      match get_user_by_email a email with
      | Returns uid =>
          (a, mkSession (Some true) (Some (Some uid)), RerunRequested)
      | Raises FirebaseError => (a, s, ShowsLogin (Some LoginFailed))
      | Raises AuthValueError => (a, s, ShowsLogin (Some InvalidEmailOrPassword))
      | Raises OtherException => (a, s, ShowsLogin (Some InvalidEmailOrPassword))
      end
  | CreateAccountClick signup_email signup_password =>
      match create_user a signup_email signup_password with
      | (a', Returns _) => (a', s, ShowsLogin (Some AccountCreated))
      | (a', Raises FirebaseError) => (a', s, ShowsLogin (Some SignUpFailed))
      | (a', Raises AuthValueError) => (a', s, ShowsLogin (Some SignUpFailed))
      | (a', Raises OtherException) => (a', s, Uncaught OtherException)
      end
  end.

(** One run of [app]. *)
Definition app_run (a : auth) (s : session_state) (c : click)
  : result (auth * session_state * script_end) :=
  let s :=
    match logged_in s with
    | None => mkSession (Some false) (Some None)
    | Some _ => s
    end in
  match logged_in s with
  | Some true =>
      match user_id s with
      | Some user => Ok (a, s, ShowsDashboard user)
      | None => Raise (KeyError "user_id")
      end
  | _ => Ok (login_page a s c)
  end.

(** [app] with the rerun that a successful login asks for. *)
Definition app (a : auth) (s : session_state) (c : click)
  : result (auth * session_state * script_end) :=
  r <- app_run a s c ;;
  match r with
  | (a', s', RerunRequested) => app_run a' s' NoClick
  | _ => Ok r
  end.

(** The sessions a browser tab can get into: from the fresh one by runs
    of [app], one per interaction. *)
Inductive reachable (a0 : auth) : auth -> session_state -> Prop :=
| reachable_fresh : reachable a0 a0 fresh_session
| reachable_run a s c a' s' e :
    reachable a0 a s ->
    app a s c = Ok (a', s', e) ->
    reachable a0 a' s'.

(** The shapes a session takes: untouched, initialised and signed out, or
    signed in with a user id the service once returned for an e-mail. *)
Inductive session_shape : session_state -> Prop :=
| shape_fresh : session_shape fresh_session
| shape_signed_out : session_shape (mkSession (Some false) (Some None))
| shape_signed_in (a : auth) (email uid : string) :
    get_user_by_email a email = Returns uid ->
    session_shape (mkSession (Some true) (Some (Some uid))).

End Auth.

(** ** Further vocabulary *)

(** How many entries of the table the loop skips before it returns: the
    position of the matching entry, or the length of the table when the
    loop runs off its end. *)
Fixpoint scan_rank (desc : string) (items : list (string * list string)) : nat :=
  match items with
  | [] => O
  | (_, terms) :: rest =>
      if any_term_in desc terms then O else S (scan_rank desc rest)
  end.

(** Row [a] comes strictly before row [b] in the order [leb] of the
    keys. *)
Definition key_lt {K : Type} (leb : K -> K -> bool) (a b : K * Z) : Prop :=
  leb (fst a) (fst b) = true /\ fst a <> fst b.

(** What the order of the keys must provide for sorting to be canonical:
    [eqb] decides equality and [leb] is a total order. *)
Record key_order {K : Type} (eqb leb : K -> K -> bool) : Prop := mkKeyOrder
  { key_eqb_eq : forall a b, eqb a b = true <-> a = b;
    key_leb_total : forall a b, leb a b = true \/ leb b a = true;
    key_leb_trans : forall a b c, leb a b = true -> leb b c = true -> leb a c = true;
    key_leb_antisym : forall a b, leb a b = true -> leb b a = true -> a = b }.

(** The keys of a chart, bar by bar; of the four trend charts; and a
    panel with its chart data replaced. *)
Definition keys {K : Type} (rows : list (K * Z)) : list K := map fst rows.

Definition trend_keys (t : trends)
  : list date * list string * list string * list string :=
  (keys (daily t), keys (weekly t), keys (monthly t), keys (by_category t)).

Definition panel_map {A B : Type} (f : A -> B) (p : panel A) : panel B :=
  match p with
  | Chart data => Chart (f data)
  | Info message => Info message
  end.

(** The four tables of the trend charts and the table of the lending
    chart, as functions of the documents. *)
Definition trend_tables (docs : list Txn.t) : trends :=
  mkTrends
    (groupby_sum_cells Calendar.date_eqb Calendar.date_leb
       (map (fun r => (Txn.date r, Txn.amount r)) docs))
    (groupby_sum_cells String.eqb String.leb
       (map (fun r => (Calendar.week_label (Txn.date r), Txn.amount r)) docs))
    (groupby_sum_cells String.eqb String.leb
       (map (fun r => (Calendar.month_label (Txn.date r), Txn.amount r)) docs))
    (groupby_sum_cells String.eqb String.leb
       (map (fun r => (Txn.category r, Txn.amount r)) docs)).

Definition lending_table (docs : list Lend.t) : list ((string * string) * Z) :=
  groupby_sum_cells pair_eqb pair_leb
    (map (fun r => ((Calendar.month_label (Lend.date r), Lend.type r),
                    Lend.amount r)) docs).

(* ================================================================== *)
(** * Part II: properties *)
(* ================================================================== *)

(** ** Strings *)

Module PyStrFacts.
Import PyStr.

Lemma prefix_iff (t s : string) :
  String.prefix t s = true <-> exists after, s = (t ++ after)%string.
Proof.
  revert s; induction t as [|a t IH]; intros s; simpl.
  - destruct s; simpl; split; intros _; eauto.
  - destruct s as [|b s].
    + split; [discriminate | intros [after H]; discriminate H].
    + simpl. destruct (ascii_dec a b) as [->|Hab].
      * rewrite IH. split; intros [after H]; exists after.
        -- now rewrite H.
        -- now injection H.
      * split; [discriminate |].
        intros [after H]. injection H as H1 _. now elim Hab.
Qed.

(** [str_in] decides occurrence as a contiguous run. *)
Lemma str_in_iff (t s : string) :
  str_in t s = true <-> occurs_in t s.
Proof.
  unfold occurs_in. induction s as [|c s IH].
  - cbn [str_in]. rewrite orb_false_r, prefix_iff. split.
    + intros [after H]. now exists EmptyString, after.
    + intros [[|b before] [after H]]; [now exists after|discriminate H].
  - cbn [str_in]. rewrite orb_true_iff, IH, prefix_iff. split.
    + intros [[after H]|[before [after H]]].
      * now exists EmptyString, after.
      * exists (String c before), after. simpl. now rewrite H.
    + intros [[|b before] [after H]].
      * left. now exists after.
      * right. exists before, after. simpl in H. now injection H.
Qed.

Lemma lower_upper_char (c : ascii) : lower_char (upper_char c) = lower_char c.
Proof. destruct c as [[] [] [] [] [] [] [] []]; reflexivity. Qed.

Lemma lower_lower_char (c : ascii) : lower_char (lower_char c) = lower_char c.
Proof. destruct c as [[] [] [] [] [] [] [] []]; reflexivity. Qed.

Lemma same_letter_lower (a b : ascii) :
  same_letter a b -> lower_char b = lower_char a.
Proof.
  intros [->|[->| ->]];
    auto using lower_lower_char, lower_upper_char.
Qed.

(** Case variants have the same lower-casing. *)
Lemma case_variant_lower (s t : string) :
  case_variant s t -> lower t = lower s.
Proof.
  induction 1 as [|a b s t Hab _ IH]; simpl; [reflexivity|].
  now rewrite IH, (same_letter_lower a b Hab).
Qed.

Lemma case_variant_upper (s : string) : case_variant s (upper s).
Proof.
  induction s; simpl; constructor; auto. right; right; reflexivity.
Qed.

Lemma case_variant_lower_self (s : string) : case_variant s (lower s).
Proof.
  induction s; simpl; constructor; auto. right; left; reflexivity.
Qed.

Lemma index_In (xs : list string) (x : string) :
  In x xs -> exists i, index xs x = Ok i /\ nth_error xs i = Some x.
Proof.
  induction xs as [|y xs IH]; intros Hin; [destruct Hin|].
  simpl. destruct (String.eqb_spec y x) as [->|Hne].
  - now exists O.
  - destruct Hin as [->|Hin]; [now elim Hne|].
    destruct (IH Hin) as [i [Hi Hn]]. exists (S i). now rewrite Hi.
Qed.

End PyStrFacts.

(** ** The categoriser *)

Lemma any_term_in_iff (desc : string) (terms : list string) :
  any_term_in desc terms = true <-> matches desc terms.
Proof.
  unfold any_term_in, matches. rewrite existsb_exists.
  split; intros [term [Hin H]]; exists term; split; auto;
    now apply PyStrFacts.str_in_iff.
Qed.

(** The loop stops at the first entry with a keyword in [desc], or runs
    off the end of the table. *)
Lemma scan_keywords_first (desc : string) (items : list (string * list string)) :
  (exists before category terms after,
      items = before ++ (category, terms) :: after
      /\ matches desc terms
      /\ (forall c ts, In (c, ts) before -> ~ matches desc ts)
      /\ scan_keywords desc items = category)
  \/ ((forall c ts, In (c, ts) items -> ~ matches desc ts)
      /\ scan_keywords desc items = "Other").
Proof.
  induction items as [|[category terms] rest IH]; simpl.
  - right. split; [intros c ts []|reflexivity].
  - destruct (any_term_in desc terms) eqn:E.
    + left. exists [], category, terms, rest. simpl.
      repeat split; [now apply any_term_in_iff | intros c ts []].
    + assert (Hno : ~ matches desc terms).
      { intros H. apply any_term_in_iff in H. congruence. }
      destruct IH as [(before & c & ts & after & -> & Hm & Hb & Hr)|[Hall Hr]].
      * left. exists ((category, terms) :: before), c, ts, after.
        repeat split; auto.
        intros c' ts' [Heq|Hin]; [now inversion Heq; subst|eauto].
      * right. split; auto.
        intros c' ts' [Heq|Hin]; [now inversion Heq; subst|eauto].
  Qed.

Lemma scan_keywords_range (desc : string) (items : list (string * list string)) :
  In (scan_keywords desc items) (map fst items ++ ["Other"]).
Proof.
  induction items as [|[category terms] rest IH]; simpl; [now left|].
  destruct (any_term_in desc terms); [now left | now right].
Qed.

(** C1. [suggest_category] lower-cases the description and returns the
    category of the first entry of the table, in the order Food,
    Transport, Shopping, Bills, Entertainment, Trip, Education/Fees,
    Services, one of whose keywords occurs in the lower-cased text, so
    that of two matching categories the earlier one wins ("restaurant
    repair" gives "Food"); it returns "Other" when no keyword occurs, as
    for the empty description. *)
Theorem suggest_category_first_match :
  map fst keywords =
    ["Food"; "Transport"; "Shopping"; "Bills"; "Entertainment"; "Trip";
     "Education/Fees"; "Services"]
  /\ suggest_category "restaurant repair" = "Food"
  /\ suggest_category "" = "Other"
  /\ forall description : string,
      (exists before category terms after,
          keywords = before ++ (category, terms) :: after
          /\ matches (PyStr.lower description) terms
          /\ (forall c ts, In (c, ts) before ->
                ~ matches (PyStr.lower description) ts)
          /\ suggest_category description = category)
      \/ ((forall c ts, In (c, ts) keywords ->
             ~ matches (PyStr.lower description) ts)
          /\ suggest_category description = "Other").
Proof.
  split; [reflexivity|]. split; [reflexivity|]. split; [reflexivity|].
  intros description. apply scan_keywords_first.
Qed.



Lemma suggest_category_listed (description : string) :
  In (suggest_category description) categories.
Proof. apply scan_keywords_range. Qed.

(** ** Sums and groupings *)

Module PandasFacts.
Import Pandas.

Lemma fold_add_shift (xs : list Z) (a : Z) :
  fold_left Z.add xs a = a + fold_left Z.add xs 0.
Proof.
  revert a; induction xs as [|x xs IH]; intros a; simpl; [lia|].
  rewrite (IH (a + x)), (IH x). lia.
Qed.

Lemma sum_nil : sum [] = 0.
Proof. reflexivity. Qed.

Lemma sum_cons (x : Z) (xs : list Z) : sum (x :: xs) = x + sum xs.
Proof. unfold sum; simpl. now rewrite fold_add_shift. Qed.

Lemma sum_app (xs ys : list Z) : sum (xs ++ ys) = sum xs + sum ys.
Proof.
  induction xs as [|x xs IH]; simpl; [reflexivity|].
  rewrite !sum_cons, IH. lia.
Qed.

Lemma sum_perm (xs ys : list Z) : Permutation xs ys -> sum xs = sum ys.
Proof.
  induction 1; rewrite ?sum_cons in *; lia.
Qed.

Lemma combine_map {R A B : Type} (f : R -> A) (g : R -> B) (l : list R) :
  combine (map f l) (map g l) = map (fun r => (f r, g r)) l.
Proof. induction l; simpl; congruence. Qed.

Section GroupBy.
Context {K : Type}.
Variable eqb : K -> K -> bool.
Variable leb : K -> K -> bool.
Hypothesis eqb_eq : forall a b, eqb a b = true <-> a = b.

Local Abbreviation assoc := (Pandas.assoc eqb).
Local Abbreviation has_key := (Pandas.has_key eqb).
Local Abbreviation total_of := (Pandas.total_of eqb).
Local Abbreviation step := (Pandas.step eqb).

Lemma eqb_refl (a : K) : eqb a a = true.
Proof. now apply eqb_eq. Qed.

Lemma eqb_neq (a b : K) : eqb a b = false <-> a <> b.
Proof.
  destruct (eqb a b) eqn:E.
  - apply eqb_eq in E. split; [discriminate | now intros H; elim H].
  - split; auto. intros _ H. apply eqb_eq in H. congruence.
Qed.

Lemma has_key_iff (k : K) (cells : list (K * Z)) :
  has_key k cells = true <-> In k (map fst cells).
Proof.
  unfold Pandas.has_key. rewrite existsb_exists, in_map_iff.
  split; intros [c [H1 H2]]; exists c.
  - apply eqb_eq in H2. auto.
  - split; [assumption | now apply eqb_eq].
Qed.

Ltac by_key a b :=
  let E := fresh "E" in
  destruct (eqb a b) eqn:E;
  [apply eqb_eq in E; subst | apply eqb_neq in E].

Lemma accumulate_sum (k : K) (v : Z) (groups : list (K * Z)) :
  sum (map snd (accumulate eqb k v groups)) = sum (map snd groups) + v.
Proof.
  induction groups as [|[k' s] rest IH]; simpl.
  - rewrite sum_cons, sum_nil. lia.
  - destruct (eqb k' k); simpl; rewrite !sum_cons; [lia|].
    rewrite IH. lia.
Qed.

Lemma accumulate_keys (k : K) (v : Z) (groups : list (K * Z)) (k' : K) :
  In k' (map fst (accumulate eqb k v groups))
  <-> k' = k \/ In k' (map fst groups).
Proof.
  induction groups as [|[k1 s] rest IH]; simpl.
  - intuition.
  - by_key k1 k; simpl; [intuition|]. rewrite IH. intuition.
Qed.

Lemma accumulate_NoDup (k : K) (v : Z) (groups : list (K * Z)) :
  NoDup (map fst groups) -> NoDup (map fst (accumulate eqb k v groups)).
Proof.
  induction groups as [|[k1 s] rest IH]; simpl; intros H.
  - constructor; [intros []|constructor].
  - by_key k1 k; simpl; [assumption|].
    inversion H as [|? ? Hnot Hrest]; subst. constructor; auto.
    rewrite accumulate_keys. intros [->|Hin]; [now elim E | now elim Hnot].
Qed.

Lemma assoc_accumulate (k : K) (v : Z) (groups : list (K * Z)) (k' : K) :
  assoc k' (accumulate eqb k v groups) =
    if eqb k k'
    then Some (match assoc k groups with Some s => s + v | None => v end)
    else assoc k' groups.
Proof.
  induction groups as [|[k1 s] rest IH]; simpl.
  - reflexivity.
  - by_key k1 k; simpl.
    + now destruct (eqb k k').
    + rewrite IH. by_key k1 k'; [|reflexivity].
      destruct (eqb k k') eqn:E'; [|reflexivity].
      apply eqb_eq in E'. now elim E.
Qed.

Lemma assoc_In (k : K) (v : Z) (groups : list (K * Z)) :
  NoDup (map fst groups) ->
  (In (k, v) groups <-> assoc k groups = Some v).
Proof.
  induction groups as [|[k1 s] rest IH]; simpl; intros H.
  - split; [intros [] | discriminate].
  - inversion H as [|? ? Hnot Hrest]; subst. by_key k1 k.
    + split.
      * intros [Heq|Hin]; [congruence|].
        elim Hnot. apply in_map_iff. now exists (k, v).
      * intros Heq. left. congruence.
    + rewrite <- (IH Hrest). split; [|now right].
      intros [Heq|Hin]; [congruence | assumption].
Qed.

Lemma fold_step_sum (cells groups : list (K * Z)) :
  sum (map snd (fold_left step cells groups))
  = sum (map snd groups) + sum (map snd cells).
Proof.
  revert groups; induction cells as [|c cells IH]; intros groups; simpl.
  - rewrite sum_nil. lia.
  - rewrite IH. unfold Pandas.step. rewrite accumulate_sum, sum_cons. lia.
Qed.

Lemma fold_step_NoDup (cells groups : list (K * Z)) :
  NoDup (map fst groups) -> NoDup (map fst (fold_left step cells groups)).
Proof.
  revert groups; induction cells as [|c cells IH]; intros groups H; simpl.
  - assumption.
  - apply IH. now apply accumulate_NoDup.
Qed.

Lemma has_key_cons (k : K) (c : K * Z) (cells : list (K * Z)) :
  has_key k (c :: cells) = eqb (fst c) k || has_key k cells.
Proof. reflexivity. Qed.

Lemma total_of_cons (k : K) (c : K * Z) (cells : list (K * Z)) :
  total_of k (c :: cells)
  = (if eqb (fst c) k then snd c else 0) + total_of k cells.
Proof.
  unfold Pandas.total_of. cbn [filter].
  destruct (eqb (fst c) k); cbn [map]; rewrite ?sum_cons; lia.
Qed.

Lemma total_of_no_key (k : K) (cells : list (K * Z)) :
  has_key k cells = false -> total_of k cells = 0.
Proof.
  induction cells as [|c cells IH]; [reflexivity|].
  rewrite has_key_cons, total_of_cons, orb_false_iff.
  intros [-> H]. rewrite (IH H). lia.
Qed.

Lemma fold_step_assoc (k : K) (cells groups : list (K * Z)) :
  assoc k (fold_left step cells groups) =
    if has_key k cells
    then Some (match assoc k groups with Some s => s | None => 0 end
               + total_of k cells)
    else assoc k groups.
Proof.
  revert groups; induction cells as [|[k1 v] cells IH]; intros groups.
  - reflexivity.
  - cbn [fold_left]. rewrite IH, has_key_cons, total_of_cons.
    unfold Pandas.step; cbn [fst snd]. rewrite assoc_accumulate.
    destruct (has_key k cells) eqn:Hk.
    + rewrite orb_true_r.
      destruct (eqb k1 k) eqn:E; [apply eqb_eq in E; subst|reflexivity].
      destruct (assoc k groups); f_equal; lia.
    + rewrite orb_false_r, (total_of_no_key _ _ Hk).
      destruct (eqb k1 k) eqn:E; [apply eqb_eq in E; subst|reflexivity].
      destruct (assoc k groups); f_equal; lia.
Qed.

Lemma insert_row_perm (r : K * Z) (sorted : list (K * Z)) :
  Permutation (insert_row leb r sorted) (r :: sorted).
Proof.
  induction sorted as [|r' rest IH]; simpl; [reflexivity|].
  destruct (leb (fst r) (fst r')); [reflexivity|].
  rewrite IH. apply perm_swap.
Qed.

Lemma sort_rows_perm (groups : list (K * Z)) :
  Permutation (sort_rows leb groups) groups.
Proof.
  induction groups as [|r rest IH]; simpl; [reflexivity|].
  now rewrite insert_row_perm, IH.
Qed.

(** The result of a grouping is a rearrangement of the running
    totals. *)
Lemma groupby_perm (cells : list (K * Z)) :
  Permutation (groupby_sum_cells eqb leb cells) (group_totals eqb cells).
Proof. apply sort_rows_perm. Qed.

(** Added exactly, the totals of the rows are the total of the cells. *)
Lemma groupby_total (cells : list (K * Z)) :
  sum (map snd (groupby_sum_cells eqb leb cells)) = sum (map snd cells).
Proof.
  rewrite (sum_perm _ _ (Permutation_map snd (groupby_perm cells))).
  unfold group_totals.
  now rewrite fold_step_sum.
Qed.

(** One row per key. *)
Lemma groupby_NoDup (cells : list (K * Z)) :
  NoDup (map fst (groupby_sum_cells eqb leb cells)).
Proof.
  eapply Permutation_NoDup.
  - symmetry. apply Permutation_map, groupby_perm.
  - apply (fold_step_NoDup cells []). constructor.
Qed.

(** A row is a key of the input with the total of its cells. *)
Lemma groupby_rows (cells : list (K * Z)) (k : K) (v : Z) :
  In (k, v) (groupby_sum_cells eqb leb cells)
  <-> In k (map fst cells) /\ v = total_of k cells.
Proof.
  assert (Hnd : NoDup (map fst (group_totals eqb cells)))
    by (apply (fold_step_NoDup cells []); constructor).
  split.
  - intros H. apply (Permutation_in _ (groupby_perm cells)) in H.
    apply (assoc_In _ _ _ Hnd) in H.
    unfold group_totals in H. rewrite fold_step_assoc in H.
    destruct (has_key k cells) eqn:Hk; [|discriminate].
    split; [now apply has_key_iff | simpl in H; congruence].
  - intros [Hin ->].
    apply (Permutation_in _ (Permutation_sym (groupby_perm cells))).
    apply (assoc_In _ _ _ Hnd).
    unfold group_totals. rewrite fold_step_assoc.
    apply has_key_iff in Hin. now rewrite Hin.
Qed.



(** A frame with columns is grouped without error. *)
Lemma groupby_sum_frame {R : Type} (name : string) (key : R -> K)
    (value : R -> Z) (r : R) (docs : list R) :
  groupby_sum eqb leb name key value (DataFrame (r :: docs))
  = Ok (groupby_sum_cells eqb leb
          (map (fun x => (key x, value x)) (r :: docs))).
Proof.
  unfold groupby_sum, col. cbn [DataFrame has_columns rows bind].
  now rewrite combine_map.
Qed.

End GroupBy.
End PandasFacts.

(** ** Calendar labels *)

Module CalendarFacts.
Import Calendar.

Example week_of_a_monday :
  week_label (mkDate 2024 1 1) = "2024-01-01/2024-01-07".
Proof. reflexivity. Qed.

Example week_across_a_leap_day :
  week_label (mkDate 2024 2 29) = "2024-02-26/2024-03-03".
Proof. reflexivity. Qed.

Example week_across_new_year :
  week_label (mkDate 2025 1 1) = "2024-12-30/2025-01-05".
Proof. reflexivity. Qed.

Example civil_round_trip :
  civil_from_days (days_from_civil (mkDate 2023 12 31)) = mkDate 2023 12 31.
Proof. reflexivity. Qed.

Lemma digit_inj (a b : Z) : digit a = digit b -> a mod 10 = b mod 10.
Proof.
  unfold digit. intros H.
  apply (f_equal N_of_ascii) in H.
  assert (Ha := Z.mod_pos_bound a 10 eq_refl).
  assert (Hb := Z.mod_pos_bound b 10 eq_refl).
  rewrite !N_ascii_embedding in H by lia. lia.
Qed.

Lemma pad2_inj (a b : Z) :
  0 <= a < 100 -> 0 <= b < 100 -> pad2 a = pad2 b -> a = b.
Proof.
  unfold pad2. intros Ha Hb H. injection H as H1 H0.
  apply digit_inj in H1, H0.
  Z.div_mod_to_equations. lia.
Qed.

Lemma pad4_inj (a b : Z) :
  0 <= a < 10000 -> 0 <= b < 10000 -> pad4 a = pad4 b -> a = b.
Proof.
  unfold pad4. intros Ha Hb H. injection H as H3 H2 H1 H0.
  apply digit_inj in H3, H2, H1, H0.
  Z.div_mod_to_equations. lia.
Qed.

(** Two calendar dates carry the same month label exactly when they agree
    on year and month. *)
Lemma month_label_eqb (a b : date) :
  calendar_date a -> calendar_date b ->
  String.eqb (month_label a) (month_label b) = same_month a b.
Proof.
  intros (Hya & Hma & _) (Hyb & Hmb & _). unfold same_month.
  destruct (String.eqb_spec (month_label a) (month_label b)) as [H|H].
  - unfold month_label, pad4, pad2 in H. cbn [String.append] in H.
    injection H as H3 H2 H1 H0 M1 M0.
    assert (Hy : year a = year b).
    { apply pad4_inj; [lia | lia |]. unfold pad4. congruence. }
    assert (Hm : month a = month b).
    { apply pad2_inj; [lia | lia |]. unfold pad2. congruence. }
    rewrite Hy, Hm, !Z.eqb_refl. reflexivity.
  - destruct (Z.eqb_spec (year a) (year b)) as [Hy|]; [|reflexivity].
    destruct (Z.eqb_spec (month a) (month b)) as [Hm|]; [|reflexivity].
    elim H. unfold month_label. now rewrite Hy, Hm.
Qed.

End CalendarFacts.

(** ** The dashboard *)

Import Pandas.

Lemma total_of_rows {R K : Type} (eqb : K -> K -> bool) (key : R -> K)
    (value : R -> Z) (k : K) (docs : list R) :
  total_of eqb k (map (fun x => (key x, value x)) docs)
  = sum (map value (filter (fun x => eqb (key x) k) docs)).
Proof.
  unfold total_of. induction docs as [|r docs IH]; [reflexivity|].
  cbn [map filter fst]. destruct (eqb (key r) k); cbn [map snd]; [|exact IH].
  rewrite !PandasFacts.sum_cons. now rewrite IH.
Qed.

Lemma frame_of_docs (r : Txn.t) (docs : list Txn.t) :
  get_transactions_df (r :: docs) = DataFrame (r :: docs).
Proof. reflexivity. Qed.




(** C5. The monthly grouping has one row per month of the input, keyed by
    the label year-month, whose total is the sum of the signed amounts of
    the transactions dated in that year and month; the three transactions
    of January and February 2024 give ("2024-01", -50) and
    ("2024-02", -10), in this order. *)
Theorem monthly_expenses_by_year_month :
  monthly_expenses (get_transactions_df example_months)
  = Ok [("2024-01", rupees (-50)); ("2024-02", rupees (-10))]
  /\ forall docs : list Txn.t,
      docs <> [] ->
      (forall r, In r docs -> calendar_date (Txn.date r)) ->
      exists rows : list (string * Z),
        monthly_expenses (get_transactions_df docs) = Ok rows
        /\ NoDup (map fst rows)
        /\ forall label v,
            In (label, v) rows
            <-> exists r, In r docs
                  /\ label = Calendar.month_label (Txn.date r)
                  /\ v = month_total (Txn.date r) docs.
Proof.
  split; [reflexivity|].
  intros [|r0 docs]; [congruence|]. intros _ Hdates.
  set (all := r0 :: docs) in *.
  set (key := fun x : Txn.t => Calendar.month_label (Txn.date x)).
  set (cells := map (fun x => (key x, Txn.amount x)) all).
  exists (groupby_sum_cells String.eqb String.leb cells).
  split; [apply PandasFacts.groupby_sum_frame|].
  split; [apply PandasFacts.groupby_NoDup; exact String.eqb_eq|].
  assert (Htot : forall r, In r all ->
            total_of String.eqb (key r) cells = month_total (Txn.date r) all).
  { intros r Hr. unfold cells. rewrite total_of_rows. unfold month_total.
    f_equal. f_equal. apply filter_ext_in. intros x Hx. unfold key.
    apply CalendarFacts.month_label_eqb; auto. }
  intros label v.
  rewrite (PandasFacts.groupby_rows String.eqb String.leb String.eqb_eq).
  unfold cells at 1. rewrite map_map, in_map_iff. cbn [fst].
  split.
  - intros [[r [<- Hr]] ->]. exists r.
    split; [exact Hr|]. split; [reflexivity|]. now apply Htot.
  - intros [r [Hr [-> ->]]].
    split; [now exists r | symmetry; now apply Htot].
Qed.

Lemma monthly_expenses_by_year_month_witness :
  exists rows : list (string * Z),
    monthly_expenses (get_transactions_df example_months) = Ok rows
    /\ NoDup (map fst rows)
    /\ forall label v,
        In (label, v) rows
        <-> exists r, In r example_months
              /\ label = Calendar.month_label (Txn.date r)
              /\ v = month_total (Txn.date r) example_months.
Proof.
  apply (proj2 monthly_expenses_by_year_month example_months).
  - discriminate.
  - intros r [<-|[<-|[<-|[]]]]; unfold calendar_date; simpl; lia.
Defined.

Lemma lending_total_filter (ty : string) (docs : list Lend.t) :
  sum (map Lend.amount (filter (fun r => String.eqb (Lend.type r) ty) docs))
  = lending_total ty docs.
Proof.
  induction docs as [|r docs IH]; [reflexivity|].
  cbn [filter lending_total]. destruct (String.eqb (Lend.type r) ty); [|exact IH].
  cbn [map]. now rewrite PandasFacts.sum_cons, IH.
Qed.

Lemma total_expenses_ok (docs : list Txn.t) :
  total_expenses (get_transactions_df docs) = Ok (sum (map Txn.amount docs)).
Proof. destruct docs; reflexivity. Qed.

Lemma total_by_type_ok (ty : string) (docs : list Lend.t) :
  total_by_type ty (get_lending_loan_df docs) = Ok (lending_total ty docs).
Proof.
  destruct docs as [|r docs]; [reflexivity|].
  rewrite <- lending_total_filter. reflexivity.
Qed.

Lemma expense_trends_ok (docs : list Txn.t) :
  exists t, expense_trends (get_transactions_df docs) = Ok t
            /\ (docs = [] -> t = Info "No transactions to show trends.").
Proof.
  destruct docs as [|r docs].
  - eexists. split; reflexivity.
  - unfold expense_trends, daily_expenses, weekly_expenses, monthly_expenses,
      category_expenses.
    rewrite frame_of_docs, !PandasFacts.groupby_sum_frame.
    eexists. split; [reflexivity | discriminate].
Qed.

Lemma monthly_lending_loan_ok (docs : list Lend.t) :
  exists g, monthly_lending_loan (get_lending_loan_df docs) = Ok g
            /\ (docs = [] -> g = Info "No lending or loan records to display.").
Proof.
  destruct docs as [|r docs].
  - eexists. split; reflexivity.
  - unfold monthly_lending_loan.
    change (get_lending_loan_df (r :: docs)) with (DataFrame (r :: docs)).
    rewrite PandasFacts.groupby_sum_frame.
    eexists. split; [reflexivity | discriminate].
Qed.

Lemma total_bad_expenses_ok (docs : list Txn.t) :
  total_bad_expenses (get_transactions_df docs)
  = Ok (sum (map Txn.amount
          (filter (fun r => isin bad_categories (Txn.category r)) docs))).
Proof. destruct docs; reflexivity. Qed.

Lemma goodbad_summary_ok (docs : list Txn.t) :
  goodbad_summary (get_transactions_df docs)
  = Ok match docs with
       | [] => Info "No expense data to analyze."
       | _ :: _ =>
           Chart
             (sum (map Txn.amount
                (filter (fun r => negb (isin bad_categories (Txn.category r))) docs)),
              sum (map Txn.amount
                (filter (fun r => isin bad_categories (Txn.category r)) docs)))
       end.
Proof. destruct docs; reflexivity. Qed.

(** One run of the dashboard never raises, whatever the store holds and
    whatever is typed in the description box. *)
Lemma main_app_ok (db : store) (description : string) :
  exists i t g,
    main_app db description
    = Ok (mkDashboard
            (sum (map Txn.amount (transactions db)))
            (lending_total "Lent" (lending_loan db))
            (lending_total "Loan" (lending_loan db))
            i t g
            (sum (map Txn.amount
               (filter (fun r => isin bad_categories (Txn.category r))
                  (transactions db))))
            match transactions db with
            | [] => Info "No expense data to analyze."
            | _ :: _ =>
                Chart
                  (sum (map Txn.amount
                     (filter (fun r => negb (isin bad_categories (Txn.category r)))
                        (transactions db))),
                   sum (map Txn.amount
                     (filter (fun r => isin bad_categories (Txn.category r))
                        (transactions db))))
            end)
    /\ suggested_index description = Ok i
    /\ nth_error categories i = Some (suggest_category description)
    /\ (transactions db = [] -> t = Info "No transactions to show trends.")
    /\ (lending_loan db = [] -> g = Info "No lending or loan records to display.").
Proof.
  destruct (expense_trends_ok (transactions db)) as [t [Ht Ht0]].
  destruct (monthly_lending_loan_ok (lending_loan db)) as [g [Hg Hg0]].
  destruct (PyStrFacts.index_In categories _ (suggest_category_listed description))
    as [i [Hi Hn]].
  exists i, t, g. split; [|auto].
  unfold main_app, total_lent, total_loan, suggested_index.
  rewrite total_expenses_ok, !total_by_type_ok, Hi, Ht, Hg,
    total_bad_expenses_ok, goodbad_summary_ok.
  reflexivity.
Qed.

(** C7. The total of one lending type adds up the amounts of exactly the
    lending records of that type, and is what the summary shows as money
    lent ("Lent") and taken as loan ("Loan"); of A's 100 lent and B's 50
    loan, the total for "Lent" is 100. *)
Theorem total_by_type_sums_matching :
  total_by_type "Lent" (get_lending_loan_df example_lending) = Ok (rupees 100)
  /\ (forall (ty : string) (docs : list Lend.t),
        total_by_type ty (get_lending_loan_df docs) = Ok (lending_total ty docs))
  /\ (forall (db : store) (description : string) (d : dashboard),
        main_app db description = Ok d ->
        overall_lent d = lending_total "Lent" (lending_loan db)
        /\ overall_loan d = lending_total "Loan" (lending_loan db)).
Proof.
  split; [reflexivity|]. split; [exact total_by_type_ok|].
  intros db description d H.
  destruct (main_app_ok db description) as (i & t & g & E & _).
  rewrite E in H. injection H as <-. split; reflexivity.
Qed.

Lemma total_by_type_sums_matching_witness :
  exists d : dashboard,
    main_app (mkStore example_months example_lending) "" = Ok d
    /\ overall_lent d = rupees 100 /\ overall_loan d = rupees 50.
Proof.
  eexists. split; [reflexivity|].
  exact (proj2 (proj2 total_by_type_sums_matching)
           (mkStore example_months example_lending) "" _ eq_refl).
Defined.

(** Why the dashboard tests [df.empty] first: on the frame of an empty
    collection the column selections themselves raise. *)
Remark unguarded_grouping_raises :
  category_expenses (get_transactions_df []) = Raise (KeyError "category")
  /\ col "amount" Txn.amount (get_transactions_df []) = Raise (KeyError "amount").
Proof. split; reflexivity. Qed.

(** C4. With no records nothing raises and nothing is null: the fetch
    gives the empty frame, the overall totals and the could-have-saved
    total are zero, and the daily, weekly, monthly, by-category and
    lending groupings, which the dashboard skips behind its emptiness
    tests, produce no row (a notice takes the place of each chart); a
    frame that keeps its columns and has no row sums to zero and groups
    into no row. *)
Theorem empty_collections_are_handled :
  get_transactions_df [] = DataFrame []
  /\ get_lending_loan_df [] = DataFrame []
  /\ (forall description : string,
        exists i, main_app (mkStore [] []) description
                  = Ok (mkDashboard 0 0 0 i
                          (Info "No transactions to show trends.")
                          (Info "No lending or loan records to display.")
                          0
                          (Info "No expense data to analyze.")))
  /\ (forall (lending : list Lend.t) (description : string),
        exists d, main_app (mkStore [] lending) description = Ok d
                  /\ overall_expenses d = 0
                  /\ trend_charts d = Info "No transactions to show trends."
                  /\ could_have_saved d = 0
                  /\ goodbad_chart d = Info "No expense data to analyze.")
  /\ (forall (docs : list Txn.t) (description : string),
        exists d, main_app (mkStore docs []) description = Ok d
                  /\ overall_lent d = 0 /\ overall_loan d = 0
                  /\ lending_chart d = Info "No lending or loan records to display.")
  /\ sum [] = 0
  /\ daily_expenses (mkFrame true []) = Ok []
  /\ weekly_expenses (mkFrame true []) = Ok []
  /\ monthly_expenses (mkFrame true []) = Ok []
  /\ category_expenses (mkFrame true []) = Ok []
  /\ monthly_lending_loan (mkFrame true [])
     = Ok (Info "No lending or loan records to display.").
Proof.
  split; [reflexivity|]. split; [reflexivity|].
  split; [|split; [|split; [|repeat split; reflexivity]]].
  - intros description.
    destruct (main_app_ok (mkStore [] []) description)
      as (i & t & g & E & _ & _ & Ht & Hg).
    exists i. rewrite E, (Ht eq_refl), (Hg eq_refl). reflexivity.
  - intros lending description.
    destruct (main_app_ok (mkStore [] lending) description)
      as (i & t & g & E & _ & _ & Ht & _).
    eexists. split; [exact E|]. cbn. rewrite (Ht eq_refl). auto.
  - intros docs description.
    destruct (main_app_ok (mkStore docs []) description)
      as (i & t & g & E & _ & _ & _ & Hg).
    eexists. split; [exact E|]. cbn. rewrite (Hg eq_refl). auto.
Qed.

Lemma expense_magnitudes_signed (docs : list Txn.t) :
  (forall r, In r docs ->
     isin bad_categories (Txn.category r) = true -> Txn.amount r < 0) ->
  sum (map Txn.amount
         (filter (fun r => isin bad_categories (Txn.category r)) docs))
  = - expense_magnitudes bad_categories docs.
Proof.
  induction docs as [|r docs IH]; intros Hneg; [reflexivity|].
  assert (IH' := IH (fun x Hx => Hneg x (or_intror Hx))).
  cbn [filter expense_magnitudes].
  destruct (isin bad_categories (Txn.category r)) eqn:E; cbn [andb].
  - assert (Hr := Hneg r (or_introl eq_refl) E).
    apply Z.ltb_lt in Hr. rewrite Hr. cbn [map].
    rewrite PandasFacts.sum_cons, IH'. lia.
  - exact IH'.
Qed.

(** C2. What the code computes for the good-against-bad split: the
    figure shown as the amount that could have been saved is the signed
    sum of the amounts booked under Entertainment, Food or Trip, hence the
    negated sum of the expense magnitudes when these are all expenses, and
    the good slice is the signed sum of the rest.  On the three
    transactions Food -100, Bills -50, Other +200 the code gives
    -100 and 150, where the sum of expense magnitudes is 100. *)
Theorem good_bad_split_is_signed :
  total_bad_expenses (get_transactions_df example_split) = Ok (rupees (-100))
  /\ goodbad_summary (get_transactions_df example_split)
     = Ok (Chart (rupees 150, rupees (-100)))
  /\ expense_magnitudes bad_categories example_split = rupees 100
  /\ forall docs : list Txn.t,
      exists bad : Z,
        total_bad_expenses (get_transactions_df docs) = Ok bad
        /\ bad = sum (map Txn.amount
                   (filter (fun r => isin bad_categories (Txn.category r)) docs))
        /\ ((forall r, In r docs ->
               isin bad_categories (Txn.category r) = true -> Txn.amount r < 0) ->
            bad = - expense_magnitudes bad_categories docs).
Proof.
  repeat (split; [reflexivity|]).
  intros docs. eexists. split; [apply total_bad_expenses_ok|].
  split; [reflexivity | apply expense_magnitudes_signed].
Qed.

Lemma submitted_transaction_ok (f : transaction_form) (r : Txn.t) :
  transaction_widgets f ->
  submit_transaction f = Some r ->
  Txn.amount r <> 0
  /\ ((transaction_type f = "Income" /\ 1 <= Txn.amount r)
      \/ (transaction_type f = "Expense" /\ Txn.amount r <= -1))
  /\ In (Txn.category r) categories.
Proof.
  intros (Hty & Hmin & Hcat) H. unfold submit_transaction in H.
  destruct (nonempty (description f) && negb (amount_input f =? 0));
    [|discriminate].
  injection H as <-. cbn [Txn.amount Txn.category].
  destruct Hty as [Hty|[Hty|[]]]; rewrite <- Hty; simpl.
  - split; [lia|]. split; [|exact Hcat].
    right. split; [reflexivity | lia].
  - split; [lia|]. split; [|exact Hcat].
    left. split; [reflexivity | lia].
Qed.

Lemma submitted_lending_ok (f : lending_form) (r : Lend.t) :
  lending_widgets f -> submit_lending f = Some r -> 0 < Lend.amount r.
Proof.
  intros (Hmin & _) H. unfold submit_lending in H.
  destruct (nonempty (person f) && negb (loan_amount f =? 0));
    [|discriminate].
  injection H as <-. cbn [Lend.amount]. lia.
Qed.

(** The forms do write: a filled-in form yields a document. *)
Lemma submit_transaction_writes (f : transaction_form) :
  transaction_widgets f -> description f <> EmptyString ->
  exists r, submit_transaction f = Some r.
Proof.
  intros (_ & Hmin & _) Hd. unfold submit_transaction.
  destruct (description f) as [|c rest]; [congruence|].
  destruct (Z.eqb_spec (amount_input f) 0) as [H0|_]; [lia|].
  cbn [nonempty negb andb]. eauto.
Qed.

(** C9. A transaction written by the transaction form has a nonzero
    amount of magnitude at least 0.01 whose sign tells its type, positive
    for "Income" and negative for "Expense", and a category out of
    [categories]; a record written by the lending form has an amount
    above zero; so every store built from the empty one by submit clicks
    holds only such records. *)
Theorem created_records_are_well_formed :
  (forall (f : transaction_form) (r : Txn.t),
      transaction_widgets f ->
      submit_transaction f = Some r ->
      Txn.amount r <> 0
      /\ ((transaction_type f = "Income" /\ 1 <= Txn.amount r)
          \/ (transaction_type f = "Expense" /\ Txn.amount r <= -1))
      /\ In (Txn.category r) categories)
  /\ (forall (f : lending_form) (r : Lend.t),
        lending_widgets f ->
        submit_lending f = Some r ->
        0 < Lend.amount r)
  /\ (forall db : store,
        submits (mkStore [] []) db ->
        Forall transaction_ok (transactions db)
        /\ Forall lending_ok (lending_loan db)).
Proof.
  split; [exact submitted_transaction_ok|].
  split; [exact submitted_lending_ok|].
  induction 1 as [|db' f r _ [IHt IHl] Hw Hs|db' f r _ [IHt IHl] Hw Hs];
    cbn [add_transaction add_lending_loan transactions lending_loan].
  - split; constructor.
  - split; [|exact IHl]. apply Forall_app. split; [exact IHt|].
    constructor; [|constructor].
    destruct (submitted_transaction_ok f r Hw Hs) as (Hnz & Hsign & Hcat).
    unfold transaction_ok. repeat split; auto; lia.
  - split; [exact IHt|]. apply Forall_app. split; [exact IHl|].
    constructor; [|constructor].
    exact (submitted_lending_ok f r Hw Hs).
Qed.

Lemma created_records_are_well_formed_witness :
  exists r : Txn.t,
    submit_transaction example_form = Some r
    /\ Txn.amount r = -1
    /\ Txn.amount r <> 0
    /\ In (Txn.category r) categories.
Proof.
  eexists. split; [reflexivity|]. split; [reflexivity|].
  assert (W : transaction_widgets example_form).
  { unfold transaction_widgets; simpl. repeat split; auto; lia. }
  destruct (proj1 created_records_are_well_formed example_form _ W eq_refl)
    as (Hnz & _ & Hcat).
  split; assumption.
Defined.

(** C10. The suggestion is always one of the nine entries of
    [categories], so [categories.index(suggested_cat)] finds it and does
    not raise; a run of the dashboard gets past the category box for
    every description. *)
Theorem suggested_index_found :
  List.length categories = 9%nat
  /\ (forall description : string,
        In (suggest_category description) categories
        /\ exists i : nat,
            suggested_index description = Ok i
            /\ (i < 9)%nat
            /\ nth_error categories i = Some (suggest_category description))
  /\ (forall (db : store) (description : string),
        exists d : dashboard,
          main_app db description = Ok d
          /\ nth_error categories (category_index d)
             = Some (suggest_category description)).
Proof.
  split; [reflexivity|]. split.
  - intros description.
    split; [apply suggest_category_listed|].
    destruct (PyStrFacts.index_In categories _
                (suggest_category_listed description)) as [i [Hi Hn]].
    exists i. repeat split; auto.
    apply (nth_error_Some categories i). congruence.
  - intros db description.
    destruct (main_app_ok db description) as (i & t & g & E & _ & Hn & _).
    eexists. split; [exact E | exact Hn].
Qed.

(** ** Binary64 sums *)



(** From eight rows on, the sum of a column is not the chain of
    additions in row order: the eight amounts 0.10, 0.20, ..., 0.80 sum
    to 3.6, the chain gives 3.5999999999999996. *)
Example eight_rows_are_not_a_chain :
  Binary64.sum (map Binary64.hundredths [10; 20; 30; 40; 50; 60; 70; 80])
  = Binary64.hundredths 360
  /\ Binary64.chain 0 (map Binary64.hundredths [10; 20; 30; 40; 50; 60; 70; 80])
     <> Binary64.hundredths 360.
Proof.
  split; [vm_compute; reflexivity|].
  vm_compute. intros H. discriminate H.
Qed.

(* ================================================================== *)
(** * Part III: further properties of the code *)
(* ================================================================== *)

(** ** Orders on the grouping keys *)

Module KeyOrders.

Lemma ascii_compare_refl (a : ascii) : Ascii.compare a a = Eq.
Proof. apply N.compare_refl. Qed.

Lemma ascii_compare_lt_trans (a b c : ascii) :
  Ascii.compare a b = Lt -> Ascii.compare b c = Lt -> Ascii.compare a c = Lt.
Proof.
  unfold Ascii.compare. rewrite !N.compare_lt_iff. lia.
Qed.

Lemma compare_refl (s : string) : String.compare s s = Eq.
Proof.
  induction s as [|a s IH]; simpl; [reflexivity|].
  now rewrite ascii_compare_refl.
Qed.

Lemma compare_eq (s t : string) : String.compare s t = Eq <-> s = t.
Proof.
  split; [apply String.compare_eq_iff | intros ->; apply compare_refl].
Qed.

Lemma compare_lt_trans (s t u : string) :
  String.compare s t = Lt -> String.compare t u = Lt -> String.compare s u = Lt.
Proof.
  revert t u; induction s as [|a s IH]; intros [|b t] [|c u]; simpl;
    try discriminate; auto.
  destruct (Ascii.compare a b) eqn:Eab; try discriminate;
    destruct (Ascii.compare b c) eqn:Ebc; try discriminate; intros H1 H2.
  - apply Ascii.compare_eq_iff in Eab, Ebc. subst.
    rewrite ascii_compare_refl. eauto.
  - apply Ascii.compare_eq_iff in Eab. subst. now rewrite Ebc.
  - apply Ascii.compare_eq_iff in Ebc. subst. now rewrite Eab.
  - now rewrite (ascii_compare_lt_trans a b c Eab Ebc).
Qed.

Lemma compare_gt_lt (s t : string) :
  String.compare s t = Gt <-> String.compare t s = Lt.
Proof.
  rewrite (String.compare_antisym s t).
  destruct (String.compare t s); simpl; split; congruence.
Qed.

Lemma ltb_lt (s t : string) : String.ltb s t = true <-> String.compare s t = Lt.
Proof.
  unfold String.ltb. destruct (String.compare s t); split; congruence.
Qed.

Lemma leb_le (s t : string) : String.leb s t = true <-> String.compare s t <> Gt.
Proof.
  unfold String.leb. destruct (String.compare s t); split; congruence.
Qed.

Lemma leb_trans (s t u : string) :
  String.leb s t = true -> String.leb t u = true -> String.leb s u = true.
Proof.
  rewrite !leb_le. intros Hst Htu Hsu.
  apply compare_gt_lt in Hsu.
  destruct (String.compare s t) eqn:Est; [| |congruence].
  - apply compare_eq in Est. subst.
    apply compare_gt_lt in Hsu. congruence.
  - assert (H := compare_lt_trans _ _ _ Hsu Est).
    apply compare_gt_lt in H. congruence.
Qed.

(** Text keys: months, weeks, categories. *)
Lemma string_order : key_order String.eqb String.leb.
Proof.
  constructor.
  - apply String.eqb_eq.
  - apply String.leb_total.
  - apply leb_trans.
  - apply String.leb_antisym.
Qed.

Lemma date_eqb_eq (a b : date) : Calendar.date_eqb a b = true <-> a = b.
Proof.
  unfold Calendar.date_eqb. rewrite !andb_true_iff, !Z.eqb_eq.
  destruct a, b; simpl. split.
  - intros [[-> ->] ->]. reflexivity.
  - intros H. injection H as -> -> ->. auto.
Qed.

(** Day keys, in calendar order. *)
Lemma date_order : key_order Calendar.date_eqb Calendar.date_leb.
Proof.
  constructor.
  - apply date_eqb_eq.
  - intros [y m d] [y' m' d']. unfold Calendar.date_leb; simpl.
    destruct (Z.ltb_spec y y'), (Z.eqb_spec y y'), (Z.ltb_spec m m'),
      (Z.eqb_spec m m'), (Z.leb_spec d d'), (Z.ltb_spec y' y),
      (Z.eqb_spec y' y), (Z.ltb_spec m' m), (Z.eqb_spec m' m),
      (Z.leb_spec d' d); simpl; auto; lia.
  - intros [y m d] [y' m' d'] [y'' m'' d'']. unfold Calendar.date_leb; simpl.
    rewrite !orb_true_iff, !andb_true_iff, !orb_true_iff, !andb_true_iff,
      !Z.ltb_lt, !Z.eqb_eq, !Z.leb_le. lia.
  - intros [y m d] [y' m' d']. unfold Calendar.date_leb; simpl.
    rewrite !orb_true_iff, !andb_true_iff, !orb_true_iff, !andb_true_iff,
      !Z.ltb_lt, !Z.eqb_eq, !Z.leb_le. intros H1 H2.
    f_equal; lia.
Qed.

Lemma pair_eqb_eq (a b : string * string) : Pandas.pair_eqb a b = true <-> a = b.
Proof.
  unfold Pandas.pair_eqb. rewrite andb_true_iff, !String.eqb_eq.
  destruct a, b; simpl. split; [intros [-> ->]; reflexivity|].
  intros H. injection H as -> ->. auto.
Qed.

(** The two-column key of the lending chart. *)
Lemma pair_order : key_order Pandas.pair_eqb Pandas.pair_leb.
Proof.
  constructor.
  - apply pair_eqb_eq.
  - intros [a1 a2] [b1 b2]. unfold Pandas.pair_leb; simpl.
    rewrite !orb_true_iff, !andb_true_iff, !ltb_lt, !String.eqb_eq.
    destruct (String.compare a1 b1) eqn:E.
    + apply compare_eq in E. subst.
      destruct (String.leb_total a2 b2); auto.
    + auto.
    + apply compare_gt_lt in E. auto.
  - intros [a1 a2] [b1 b2] [c1 c2]. unfold Pandas.pair_leb; simpl.
    rewrite !orb_true_iff, !andb_true_iff, !ltb_lt, !String.eqb_eq.
    intros [H1|[-> H1]] [H2|[-> H2]]; eauto using compare_lt_trans, leb_trans.
  - intros [a1 a2] [b1 b2]. unfold Pandas.pair_leb; simpl.
    rewrite !orb_true_iff, !andb_true_iff, !ltb_lt, !String.eqb_eq.
    intros [H1|[-> H1]] [H2|[E H2]].
    + assert (H := compare_lt_trans _ _ _ H1 H2).
      rewrite compare_refl in H. discriminate.
    + subst. rewrite compare_refl in H1. discriminate.
    + rewrite compare_refl in H2. discriminate.
    + f_equal. now apply String.leb_antisym.
Qed.

End KeyOrders.

(** ** Groupings as canonical tables *)

Module GroupingFacts.
Import Pandas.

Lemma filter_perm {A : Type} (f : A -> bool) (l l' : list A) :
  Permutation l l' -> Permutation (filter f l) (filter f l').
Proof.
  induction 1 as [|x l l' _ IH|x y l|l l' l'' _ IH1 _ IH2]; simpl.
  - constructor.
  - destruct (f x); [now constructor | assumption].
  - destruct (f x), (f y); try reflexivity. apply perm_swap.
  - now transitivity (filter f l').
Qed.

(** The amounts a predicate selects add up the same in any order. *)
Lemma selected_sum_perm {A : Type} (f : A -> bool) (value : A -> Z)
    (l l' : list A) :
  Permutation l l' ->
  sum (map value (filter f l)) = sum (map value (filter f l')).
Proof.
  intros H. apply PandasFacts.sum_perm, Permutation_map, filter_perm, H.
Qed.

Section Canonical.
Context {K : Type}.
Variable eqb : K -> K -> bool.
Variable leb : K -> K -> bool.
Hypothesis ord : key_order eqb leb.

Local Abbreviation le := (fun a b : K * Z => leb (fst a) (fst b) = true).
Local Abbreviation lt := (key_lt leb).

Lemma insert_row_sorted (r : K * Z) (l : list (K * Z)) :
  StronglySorted le l -> StronglySorted le (insert_row leb r l).
Proof.
  induction 1 as [|r' rest Hs IH Hall]; simpl.
  - repeat constructor.
  - destruct (leb (fst r) (fst r')) eqn:E.
    + constructor; [now constructor|].
      constructor; [exact E|].
      eapply Forall_impl; [|exact Hall]. intros x Hx. simpl in *.
      exact (key_leb_trans _ _ ord _ _ _ E Hx).
    + constructor; [exact IH|].
      assert (Hr : leb (fst r') (fst r) = true).
      { destruct (key_leb_total _ _ ord (fst r) (fst r')); congruence. }
      apply Forall_forall. intros x Hx.
      apply (Permutation_in _ (PandasFacts.insert_row_perm leb r rest)) in Hx.
      destruct Hx as [<-|Hx]; [exact Hr|].
      rewrite Forall_forall in Hall. now apply Hall.
Qed.

Lemma sort_rows_sorted (l : list (K * Z)) : StronglySorted le (sort_rows leb l).
Proof.
  induction l as [|r l IH]; simpl; [constructor|].
  now apply insert_row_sorted.
Qed.

Lemma sorted_strict (l : list (K * Z)) :
  StronglySorted le l -> NoDup (map fst l) -> StronglySorted lt l.
Proof.
  induction 1 as [|r rest Hs IH Hall]; simpl; intros Hnd; [constructor|].
  inversion Hnd as [|? ? Hnot Hnd']; subst.
  constructor; [auto|].
  rewrite Forall_forall in *. intros x Hx. split; [now apply Hall|].
  intros Heq. apply Hnot. rewrite Heq. now apply in_map.
Qed.

(** Two strictly increasing tables with the same rows are the same
    table. *)
Lemma strict_sorted_unique (l1 l2 : list (K * Z)) :
  StronglySorted lt l1 -> StronglySorted lt l2 ->
  (forall x, In x l1 <-> In x l2) -> l1 = l2.
Proof.
  intros H1; revert l2.
  induction H1 as [|a l1 Hs1 IH Ha]; intros l2 H2 Hsame.
  - destruct l2 as [|b l2]; [reflexivity|].
    destruct (proj2 (Hsame b) (or_introl eq_refl)).
  - destruct H2 as [|b l2 Hs2 Hb].
    + destruct (proj1 (Hsame a) (or_introl eq_refl)).
    + rewrite Forall_forall in Ha, Hb.
      assert (Hirr : forall x, ~ lt x x) by (intros x [_ Hx]; now apply Hx).
      assert (Hab : a = b).
      { destruct (proj1 (Hsame a) (or_introl eq_refl)) as [Hba|Hin]; [auto|].
        destruct (proj2 (Hsame b) (or_introl eq_refl)) as [Hba|Hin']; [auto|].
        destruct (Hb _ Hin) as [L1 N1], (Ha _ Hin') as [L2 _].
        elim N1. exact (key_leb_antisym _ _ ord _ _ L1 L2). }
      subst b. f_equal. apply IH; [exact Hs2|].
      intros x. split; intros Hx.
      * destruct (proj1 (Hsame x) (or_intror Hx)) as [<-|Hin]; [|exact Hin].
        elim (Hirr _ (Ha _ Hx)).
      * destruct (proj2 (Hsame x) (or_intror Hx)) as [<-|Hin]; [|exact Hin].
        elim (Hirr _ (Hb _ Hx)).
Qed.

(** The rows of a grouping are strictly increasing in their keys. *)
Lemma groupby_increasing (cells : list (K * Z)) :
  StronglySorted lt (groupby_sum_cells eqb leb cells).
Proof.
  apply sorted_strict; [apply sort_rows_sorted|].
  apply PandasFacts.groupby_NoDup, (key_eqb_eq _ _ ord).
Qed.

Lemma total_of_perm (k : K) (cells cells' : list (K * Z)) :
  Permutation cells cells' -> total_of eqb k cells = total_of eqb k cells'.
Proof. apply selected_sum_perm. Qed.

(** A grouping does not depend on the order of the rows it is computed
    from. *)
Lemma groupby_perm_eq (cells cells' : list (K * Z)) :
  Permutation cells cells' ->
  groupby_sum_cells eqb leb cells = groupby_sum_cells eqb leb cells'.
Proof.
  intros H. apply strict_sorted_unique; try apply groupby_increasing.
  intros [k v].
  rewrite !(PandasFacts.groupby_rows eqb leb (key_eqb_eq _ _ ord)).
  rewrite (total_of_perm k _ _ H).
  split; intros [Hin Hv]; split; auto.
  - eapply Permutation_in; [apply Permutation_map, H | exact Hin].
  - eapply Permutation_in; [apply Permutation_map, Permutation_sym, H | exact Hin].
Qed.

End Canonical.
End GroupingFacts.

(** ** The dashboard as a function of the documents *)

Lemma expense_trends_eq (docs : list Txn.t) :
  expense_trends (get_transactions_df docs)
  = Ok match docs with
       | [] => Info "No transactions to show trends."
       | _ :: _ => Chart (trend_tables docs)
       end.
Proof.
  destruct docs as [|r docs]; [reflexivity|].
  unfold expense_trends, daily_expenses, weekly_expenses, monthly_expenses,
    category_expenses.
  rewrite frame_of_docs, !PandasFacts.groupby_sum_frame. reflexivity.
Qed.

Lemma monthly_lending_loan_eq (docs : list Lend.t) :
  monthly_lending_loan (get_lending_loan_df docs)
  = Ok match docs with
       | [] => Info "No lending or loan records to display."
       | _ :: _ => Chart (lending_table docs)
       end.
Proof.
  destruct docs as [|r docs]; [reflexivity|].
  unfold monthly_lending_loan.
  change (get_lending_loan_df (r :: docs)) with (DataFrame (r :: docs)).
  rewrite PandasFacts.groupby_sum_frame. reflexivity.
Qed.

(** Every field of the page, read off the documents. *)
Lemma main_app_eq (db : store) (description : string) :
  exists i,
    suggested_index description = Ok i
    /\ main_app db description
       = Ok (mkDashboard
               (sum (map Txn.amount (transactions db)))
               (lending_total "Lent" (lending_loan db))
               (lending_total "Loan" (lending_loan db))
               i
               match transactions db with
               | [] => Info "No transactions to show trends."
               | _ :: _ => Chart (trend_tables (transactions db))
               end
               match lending_loan db with
               | [] => Info "No lending or loan records to display."
               | _ :: _ => Chart (lending_table (lending_loan db))
               end
               (sum (map Txn.amount
                  (filter (fun r => isin bad_categories (Txn.category r))
                     (transactions db))))
               match transactions db with
               | [] => Info "No expense data to analyze."
               | _ :: _ =>
                   Chart
                     (sum (map Txn.amount
                        (filter (fun r => negb (isin bad_categories (Txn.category r)))
                           (transactions db))),
                      sum (map Txn.amount
                        (filter (fun r => isin bad_categories (Txn.category r))
                           (transactions db))))
               end).
Proof.
  destruct (PyStrFacts.index_In categories _ (suggest_category_listed description))
    as [i [Hi _]].
  exists i. split; [exact Hi|].
  unfold main_app, total_lent, total_loan. unfold suggested_index in Hi.
  unfold suggested_index.
  rewrite total_expenses_ok, !total_by_type_ok, Hi, expense_trends_eq,
    monthly_lending_loan_eq, total_bad_expenses_ok, goodbad_summary_ok.
  reflexivity.
Qed.

Ltac read_page :=
  cbn [overall_expenses overall_lent overall_loan category_index
       trend_charts lending_chart could_have_saved goodbad_chart] in *.

Lemma trend_tables_of_page (db : store) (description : string)
    (d : dashboard) (t : trends) :
  main_app db description = Ok d ->
  trend_charts d = Chart t ->
  t = trend_tables (transactions db)
  /\ overall_expenses d = sum (map Txn.amount (transactions db)).
Proof.
  intros H Hc. destruct (main_app_eq db description) as [i [_ E]].
  rewrite E in H. injection H as <-. read_page.
  split; [|reflexivity]. destruct (transactions db); congruence.
Qed.

Lemma isin_iff (values : list string) (x : string) :
  isin values x = true <-> In x values.
Proof.
  unfold isin. rewrite existsb_exists. split.
  - intros [y [Hin Hy]]. apply String.eqb_eq in Hy. now subst.
  - intros Hin. exists x. split; [exact Hin | apply String.eqb_refl].
Qed.

Lemma filter_partition {A : Type} (f : A -> bool) (l : list A) :
  Permutation (filter (fun x => negb (f x)) l ++ filter f l) l.
Proof.
  induction l as [|x l IH]; [constructor|].
  cbn [filter]. destruct (f x); cbn [negb].
  - symmetry. apply Permutation_cons_app. now symmetry.
  - cbn [List.app]. now constructor.
Qed.

(** Every transaction goes into exactly one of the two slices of the
    donut chart: the bad slice adds up the amounts of the transactions
    booked under Entertainment, Food or Trip, the good slice those of all
    the others, and the bad slice is the figure printed as the amount
    that could have been saved. *)
Theorem goodbad_slices_partition (db : store) (description : string)
    (d : dashboard) (good bad : Z) :
  main_app db description = Ok d ->
  goodbad_chart d = Chart (good, bad) ->
  exists good_rows bad_rows : list Txn.t,
    Permutation (good_rows ++ bad_rows) (transactions db)
    /\ Forall (fun r => In (Txn.category r) bad_categories) bad_rows
    /\ Forall (fun r => ~ In (Txn.category r) bad_categories) good_rows
    /\ good = sum (map Txn.amount good_rows)
    /\ bad = sum (map Txn.amount bad_rows)
    /\ could_have_saved d = bad.
Proof.
  intros H Hc. destruct (main_app_eq db description) as [i [_ E]].
  rewrite E in H. injection H as <-. read_page.
  set (p := fun r : Txn.t => isin bad_categories (Txn.category r)) in *.
  exists (filter (fun r => negb (p r)) (transactions db)),
    (filter p (transactions db)).
  split; [apply filter_partition|].
  split; [apply Forall_forall; intros r Hr; apply filter_In in Hr;
          now apply isin_iff|].
  split.
  { apply Forall_forall. intros r Hr. apply filter_In in Hr.
    destruct Hr as [_ Hr]. intros Hin. apply isin_iff in Hin.
    unfold p in Hr. rewrite Hin in Hr. discriminate. }
  set (G := sum (map Txn.amount (filter (fun r => negb _) _))) in *.
  set (B := sum (map Txn.amount (filter p _))) in *.
  destruct (transactions db) as [|r docs]; [discriminate|].
  injection Hc as Hg Hb. auto.
Qed.

Lemma goodbad_slices_partition_witness :
  exists (d : dashboard) (good_rows bad_rows : list Txn.t),
    main_app (mkStore example_split []) "" = Ok d
    /\ Permutation (good_rows ++ bad_rows) example_split
    /\ rupees (-100) = sum (map Txn.amount bad_rows)
    /\ could_have_saved d = rupees (-100).
Proof.
  destruct (goodbad_slices_partition (mkStore example_split []) "" _
              (rupees 150) (rupees (-100)) eq_refl eq_refl)
    as (good_rows & bad_rows & Hp & _ & _ & _ & Hb & Hs).
  eexists. exists good_rows, bad_rows.
  split; [reflexivity|]. split; [exact Hp|]. split; [exact Hb | exact Hs].
Defined.

Lemma grouping_covers {R K : Type} (eqb leb : K -> K -> bool)
    (key : R -> K) (value : R -> Z) (docs : list R) :
  (forall a b, eqb a b = true <-> a = b) ->
  let rows := groupby_sum_cells eqb leb (map (fun x => (key x, value x)) docs) in
  (forall r, In r docs ->
     In (key r,
         sum (map value (filter (fun x => eqb (key x) (key r)) docs))) rows)
  /\ (forall k v, In (k, v) rows ->
        (exists r, In r docs /\ key r = k)
        /\ v = sum (map value (filter (fun x => eqb (key x) k) docs))).
Proof.
  intros Heq rows. unfold rows. split.
  - intros r Hr. apply (PandasFacts.groupby_rows eqb leb Heq).
    split; [|symmetry; apply total_of_rows].
    rewrite map_map. cbn [fst]. now apply in_map.
  - intros k v Hin. apply (PandasFacts.groupby_rows eqb leb Heq) in Hin.
    destruct Hin as [Hk ->]. split; [|apply total_of_rows].
    rewrite map_map in Hk. cbn [fst] in Hk. apply in_map_iff in Hk.
    destruct Hk as [r [<- Hr]]. now exists r.
Qed.

(** Each of the four trend charts has a bar for every transaction: the
    bar of its day, of its week, of its month, of its category, whose
    total adds up the amounts of exactly the transactions with that key;
    and every bar of a chart is the bar of some transaction. *)
Theorem every_transaction_in_a_bar (db : store) (description : string)
    (d : dashboard) (t : trends) :
  main_app db description = Ok d ->
  trend_charts d = Chart t ->
  let docs := transactions db in
  let total := fun same => sum (map Txn.amount (filter same docs)) in
  (forall r, In r docs ->
     In (Txn.date r,
         total (fun x => Calendar.date_eqb (Txn.date x) (Txn.date r))) (daily t)
     /\ In (Calendar.week_label (Txn.date r),
            total (fun x => String.eqb (Calendar.week_label (Txn.date x))
                              (Calendar.week_label (Txn.date r)))) (weekly t)
     /\ In (Calendar.month_label (Txn.date r),
            total (fun x => String.eqb (Calendar.month_label (Txn.date x))
                              (Calendar.month_label (Txn.date r)))) (monthly t)
     /\ In (Txn.category r,
            total (fun x => String.eqb (Txn.category x) (Txn.category r)))
          (by_category t))
  /\ (forall k v, In (k, v) (daily t) ->
        exists r, In r docs /\ Txn.date r = k)
  /\ (forall k v, In (k, v) (weekly t) ->
        exists r, In r docs /\ Calendar.week_label (Txn.date r) = k)
  /\ (forall k v, In (k, v) (monthly t) ->
        exists r, In r docs /\ Calendar.month_label (Txn.date r) = k)
  /\ (forall k v, In (k, v) (by_category t) ->
        exists r, In r docs /\ Txn.category r = k).
Proof.
  intros H Hc docs total.
  destruct (trend_tables_of_page _ _ _ _ H Hc) as [-> _].
  unfold trend_tables; cbn [daily weekly monthly by_category].
  destruct (grouping_covers Calendar.date_eqb Calendar.date_leb
              Txn.date Txn.amount docs KeyOrders.date_eqb_eq) as [D1 D2].
  destruct (grouping_covers String.eqb String.leb
              (fun r => Calendar.week_label (Txn.date r)) Txn.amount docs
              String.eqb_eq) as [W1 W2].
  destruct (grouping_covers String.eqb String.leb
              (fun r => Calendar.month_label (Txn.date r)) Txn.amount docs
              String.eqb_eq) as [M1 M2].
  destruct (grouping_covers String.eqb String.leb
              Txn.category Txn.amount docs String.eqb_eq) as [C1 C2].
  split; [intros r Hr; repeat split; auto|].
  split; [intros k v Hin; exact (proj1 (D2 k v Hin))|].
  split; [intros k v Hin; exact (proj1 (W2 k v Hin))|].
  split; [intros k v Hin; exact (proj1 (M2 k v Hin))|].
  intros k v Hin. exact (proj1 (C2 k v Hin)).
Qed.

Lemma every_transaction_in_a_bar_witness :
  exists (d : dashboard) (t : trends),
    main_app (mkStore example_months []) "" = Ok d
    /\ trend_charts d = Chart t
    /\ forall k v, In (k, v) (by_category t) ->
         exists r, In r example_months /\ Txn.category r = k.
Proof.
  eexists. eexists. split; [reflexivity|]. split; [reflexivity|].
  exact (proj2 (proj2 (proj2 (proj2
           (every_transaction_in_a_bar (mkStore example_months []) "" _ _
              eq_refl eq_refl))))).
Defined.

Lemma trend_tables_perm (docs docs' : list Txn.t) :
  Permutation docs docs' -> trend_tables docs = trend_tables docs'.
Proof.
  intros H. unfold trend_tables.
  f_equal;
    (apply (GroupingFacts.groupby_perm_eq _ _ KeyOrders.date_order)
     || apply (GroupingFacts.groupby_perm_eq _ _ KeyOrders.string_order));
    now apply Permutation_map.
Qed.

Lemma lending_table_perm (docs docs' : list Lend.t) :
  Permutation docs docs' -> lending_table docs = lending_table docs'.
Proof.
  intros H. unfold lending_table.
  apply (GroupingFacts.groupby_perm_eq _ _ KeyOrders.pair_order).
  now apply Permutation_map.
Qed.

(** What the charts show along their axes does not depend on the order
    in which the documents of the two collections arrive: after any
    reordering of both, the same category is preselected, each chart has
    the same keys in the same order, and the same notices stand in for
    charts. *)
Theorem chart_keys_order_independent (db db' : store) (description : string) :
  Permutation (transactions db) (transactions db') ->
  Permutation (lending_loan db) (lending_loan db') ->
  exists d d',
    main_app db description = Ok d
    /\ main_app db' description = Ok d'
    /\ category_index d = category_index d'
    /\ panel_map trend_keys (trend_charts d)
       = panel_map trend_keys (trend_charts d')
    /\ panel_map keys (lending_chart d) = panel_map keys (lending_chart d')
    /\ panel_map (fun _ => tt) (goodbad_chart d)
       = panel_map (fun _ => tt) (goodbad_chart d').
Proof.
  intros Ht Hl.
  destruct (main_app_eq db description) as [i [Hi E]].
  destruct (main_app_eq db' description) as [i' [Hi' E']].
  assert (i' = i) by congruence. subst i'.
  eexists. eexists. split; [exact E|]. split; [exact E'|]. read_page.
  split; [reflexivity|].
  rewrite (trend_tables_perm _ _ Ht), (lending_table_perm _ _ Hl).
  assert (Hnil : forall (A : Type) (l l' : list A),
            Permutation l l' -> l = [] <-> l' = []).
  { intros A l l' H. split; intros ->.
    - now apply Permutation_nil.
    - now apply Permutation_nil, Permutation_sym. }
  repeat split.
  - destruct (transactions db), (transactions db'); try reflexivity;
      [destruct (Hnil _ _ _ Ht) as [H _]; discriminate (H eq_refl)
      |destruct (Hnil _ _ _ Ht) as [_ H]; discriminate (H eq_refl)].
  - destruct (lending_loan db), (lending_loan db'); try reflexivity;
      [destruct (Hnil _ _ _ Hl) as [H _]; discriminate (H eq_refl)
      |destruct (Hnil _ _ _ Hl) as [_ H]; discriminate (H eq_refl)].
  - destruct (transactions db), (transactions db'); try reflexivity;
      [destruct (Hnil _ _ _ Ht) as [H _]; discriminate (H eq_refl)
      |destruct (Hnil _ _ _ Ht) as [_ H]; discriminate (H eq_refl)].
Qed.

Lemma chart_keys_order_independent_witness :
  exists d d',
    main_app (mkStore example_months example_lending) "taxi" = Ok d
    /\ main_app (mkStore (rev example_months) (rev example_lending)) "taxi" = Ok d'
    /\ category_index d = category_index d'
    /\ panel_map trend_keys (trend_charts d)
       = panel_map trend_keys (trend_charts d')
    /\ panel_map keys (lending_chart d) = panel_map keys (lending_chart d')
    /\ panel_map (fun _ => tt) (goodbad_chart d)
       = panel_map (fun _ => tt) (goodbad_chart d').
Proof.
  apply chart_keys_order_independent; apply Permutation_rev.
Defined.

Lemma lending_table_of_page (db : store) (description : string)
    (d : dashboard) (rows : list ((string * string) * Z)) :
  main_app db description = Ok d ->
  lending_chart d = Chart rows ->
  rows = lending_table (lending_loan db)
  /\ overall_lent d = lending_total "Lent" (lending_loan db)
  /\ overall_loan d = lending_total "Loan" (lending_loan db).
Proof.
  intros H Hc. destruct (main_app_eq db description) as [i [_ E]].
  rewrite E in H. injection H as <-. read_page.
  split; [|split; reflexivity]. destruct (lending_loan db); congruence.
Qed.

(** The bars of the charts come in strictly increasing order of their
    keys: the days in calendar order, the week, month and category labels
    and the (month, type) pairs in text order. *)
Theorem charts_are_increasing (db : store) (description : string)
    (d : dashboard) :
  main_app db description = Ok d ->
  (forall t, trend_charts d = Chart t ->
     StronglySorted (key_lt Calendar.date_leb) (daily t)
     /\ StronglySorted (key_lt String.leb) (weekly t)
     /\ StronglySorted (key_lt String.leb) (monthly t)
     /\ StronglySorted (key_lt String.leb) (by_category t))
  /\ (forall rows, lending_chart d = Chart rows ->
        StronglySorted (key_lt pair_leb) rows).
Proof.
  intros H. split.
  - intros t Hc. destruct (trend_tables_of_page _ _ _ _ H Hc) as [-> _].
    unfold trend_tables; cbn [daily weekly monthly by_category].
    repeat split;
      (apply (GroupingFacts.groupby_increasing _ _ KeyOrders.date_order)
       || apply (GroupingFacts.groupby_increasing _ _ KeyOrders.string_order)).
  - intros rows Hc. destruct (lending_table_of_page _ _ _ _ H Hc) as [-> _].
    apply (GroupingFacts.groupby_increasing _ _ KeyOrders.pair_order).
Qed.

Lemma charts_are_increasing_witness :
  exists d : dashboard,
    main_app (mkStore example_months example_lending) "" = Ok d
    /\ forall rows, lending_chart d = Chart rows ->
         StronglySorted (key_lt pair_leb) rows.
Proof.
  eexists. split; [reflexivity|].
  exact (proj2 (charts_are_increasing
                  (mkStore example_months example_lending) "" _ eq_refl)).
Defined.





(** ** The forms and the store *)

Lemma nonempty_iff (s : string) : nonempty s = false <-> s = EmptyString.
Proof. destruct s; simpl; split; congruence. Qed.

(** A submit click writes exactly when the text box is filled in: the
    description for a transaction, the person's name for a lending
    record. The amount test of the [if] never fails, the number box
    keeping the amount at 0.01 or more. What is written carries the
    values of the form, the amount of a transaction up to its sign. *)
Theorem forms_write_when_filled_in :
  (forall f : transaction_form,
      transaction_widgets f ->
      (submit_transaction f = None <-> description f = EmptyString)
      /\ forall r, submit_transaction f = Some r ->
           Txn.date r = transaction_date f
           /\ Txn.description r = description f
           /\ Txn.category r = category f
           /\ Z.abs (Txn.amount r) = amount_input f)
  /\ (forall f : lending_form,
        lending_widgets f ->
        (submit_lending f = None <-> person f = EmptyString)
        /\ forall r, submit_lending f = Some r ->
             r = Lend.mk (lending_date f) (person f) (loan_amount f) (loan_type f)).
Proof.
  split.
  - intros f (_ & Hmin & _). unfold submit_transaction.
    destruct (Z.eqb_spec (amount_input f) 0) as [H0|_]; [lia|].
    cbn [negb]. rewrite andb_true_r.
    destruct (nonempty (description f)) eqn:E.
    + split.
      * split; [discriminate|]. intros Hd. apply nonempty_iff in Hd. congruence.
      * intros r H. injection H as <-. cbn.
        repeat split. destruct (String.eqb (transaction_type f) "Income"); lia.
    + split; [|discriminate]. split; [|reflexivity].
      intros _. now apply nonempty_iff.
  - intros f (Hmin & _). unfold submit_lending.
    destruct (Z.eqb_spec (loan_amount f) 0) as [H0|_]; [lia|].
    cbn [negb]. rewrite andb_true_r.
    destruct (nonempty (person f)) eqn:E.
    + split.
      * split; [discriminate|]. intros Hd. apply nonempty_iff in Hd. congruence.
      * intros r H. now injection H as <-.
    + split; [|discriminate]. split; [|reflexivity].
      intros _. now apply nonempty_iff.
Qed.

Lemma forms_write_when_filled_in_witness :
  transaction_widgets example_form
  /\ submit_transaction example_form
     = Some (Txn.mk (mkDate 2024 1 1) "tea at the cafe" (-1) "Food")
  /\ (submit_transaction example_form = None
      <-> description example_form = EmptyString).
Proof.
  assert (W : transaction_widgets example_form).
  { unfold transaction_widgets; simpl. repeat split; auto; lia. }
  split; [exact W|]. split; [reflexivity|].
  exact (proj1 (proj1 forms_write_when_filled_in example_form W)).
Defined.


(** ** More on the categoriser *)

Lemma lower_app (s t : string) :
  PyStr.lower (s ++ t) = (PyStr.lower s ++ PyStr.lower t)%string.
Proof. induction s as [|c s IH]; simpl; congruence. Qed.

Lemma string_app_assoc (s t u : string) :
  ((s ++ t) ++ u = s ++ (t ++ u))%string.
Proof. induction s as [|c s IH]; simpl; congruence. Qed.

Lemma occurs_in_more (term before desc after : string) :
  PyStr.occurs_in term desc ->
  PyStr.occurs_in term (before ++ desc ++ after).
Proof.
  intros [b [a ->]]. exists (before ++ b)%string, (a ++ after)%string.
  now rewrite !string_app_assoc.
Qed.

Lemma any_term_in_more (terms : list string) (before desc after : string) :
  any_term_in desc terms = true ->
  any_term_in (before ++ desc ++ after) terms = true.
Proof.
  rewrite !any_term_in_iff. intros [term [Hin H]].
  exists term. split; [exact Hin|]. now apply occurs_in_more.
Qed.

Lemma scan_rank_more (items : list (string * list string))
    (before desc after : string) :
  (scan_rank (before ++ desc ++ after) items <= scan_rank desc items)%nat.
Proof.
  induction items as [|[c terms] rest IH]; simpl; [lia|].
  destruct (any_term_in desc terms) eqn:E.
  - now rewrite (any_term_in_more _ before _ after E).
  - destruct (any_term_in (before ++ desc ++ after) terms); lia.
Qed.

Lemma categories_NoDup : NoDup categories.
Proof.
  unfold categories.
  repeat (constructor; [simpl; intuition discriminate|]). constructor.
Qed.

(** The position [index] finds for the suggestion is the number of
    entries the loop skipped. *)
Lemma index_scan (desc : string) (items : list (string * list string)) :
  NoDup (map fst items ++ ["Other"]) ->
  PyStr.index (map fst items ++ ["Other"]) (scan_keywords desc items)
  = Ok (scan_rank desc items).
Proof.
  induction items as [|[c terms] rest IH]; intros Hnd; [reflexivity|].
  cbn [map fst List.app scan_keywords scan_rank PyStr.index] in *.
  inversion Hnd as [|? ? Hnot Hnd']; subst.
  destruct (any_term_in desc terms).
  - now rewrite String.eqb_refl.
  - destruct (String.eqb_spec c (scan_keywords desc rest)) as [Heq|_].
    + elim Hnot. rewrite Heq. apply scan_keywords_range.
    + now rewrite (IH Hnd').
Qed.

Lemma suggested_index_rank (description : string) :
  suggested_index description
  = Ok (scan_rank (PyStr.lower description) keywords).
Proof. apply (index_scan _ keywords), categories_NoDup. Qed.

(** Text added before or after a description never moves the suggestion
    down the table: the position of the new suggestion in [categories] is
    at most the old one; so a description suggested as "Food" stays
    "Food" whatever is added. *)
Theorem more_text_never_lowers_priority (before description after : string) :
  (exists i j : nat,
      suggested_index description = Ok i
      /\ suggested_index (before ++ description ++ after) = Ok j
      /\ (j <= i)%nat)
  /\ (suggest_category description = "Food" ->
      suggest_category (before ++ description ++ after) = "Food").
Proof.
  assert (Hle := scan_rank_more keywords (PyStr.lower before)
                   (PyStr.lower description) (PyStr.lower after)).
  rewrite <- !lower_app in Hle.
  split.
  - exists (scan_rank (PyStr.lower description) keywords),
      (scan_rank (PyStr.lower (before ++ description ++ after)) keywords).
    now rewrite !suggested_index_rank.
  - unfold suggest_category. intros H.
    assert (H0 : scan_rank (PyStr.lower description) keywords = O).
    { assert (Hi := suggested_index_rank description).
      unfold suggested_index, suggest_category in Hi. rewrite H in Hi.
      change (PyStr.index categories "Food") with (@Ok nat O) in Hi.
      now injection Hi. }
    rewrite H0 in Hle.
    assert (Hj := suggested_index_rank (before ++ description ++ after)).
    destruct (scan_rank (PyStr.lower (before ++ description ++ after)) keywords)
      eqn:Er; [|lia].
    unfold keywords in Er |- *. cbn [scan_rank scan_keywords] in Er |- *.
    destruct (any_term_in _ _); [reflexivity | discriminate].
Qed.

Lemma more_text_never_lowers_priority_witness :
  suggest_category "Eat out" = "Food"
  /\ suggest_category ("Repair bill, then " ++ "Eat out" ++ " by train") = "Food".
Proof.
  split; [reflexivity|].
  exact (proj2 (more_text_never_lowers_priority
                  "Repair bill, then " "Eat out" " by train") eq_refl).
Defined.

(** When the keywords found in a description all belong to one category,
    that category is suggested. *)
Theorem single_category_match (description category : string)
    (terms : list string) :
  In (category, terms) keywords ->
  matches (PyStr.lower description) terms ->
  (forall c ts, In (c, ts) keywords ->
     matches (PyStr.lower description) ts -> c = category) ->
  suggest_category description = category.
Proof.
  intros Hin Hm Honly.
  destruct (scan_keywords_first (PyStr.lower description) keywords)
    as [(before & c & ts & after & Hk & Hmc & _ & Hr)|[Hnone _]].
  - unfold suggest_category. rewrite Hr. apply Honly with ts; [|exact Hmc].
    rewrite Hk. apply in_or_app. right. now left.
  - elim (Hnone _ _ Hin Hm).
Qed.

Lemma single_category_match_witness :
  suggest_category "Bus fare" = "Transport".
Proof.
  apply (single_category_match "Bus fare" "Transport"
           ["gas"; "fuel"; "bus"; "train"; "uber"; "cab"]).
  - unfold keywords. simpl. auto.
  - apply any_term_in_iff. reflexivity.
  - intros c ts Hin Hm. apply any_term_in_iff in Hm.
    unfold keywords in Hin. simpl in Hin.
    repeat (destruct Hin as [Hin|Hin];
            [injection Hin as <- <-;
             first [reflexivity | vm_compute in Hm; discriminate Hm]|]).
    destruct Hin.
Defined.

(** Each keyword of the table, typed on its own in whatever letter case,
    is suggested as its own category: no keyword is hidden behind an
    entry further up. *)
Theorem keyword_alone_gets_its_category (category : string)
    (terms : list string) (keyword typed : string) :
  In (category, terms) keywords ->
  In keyword terms ->
  PyStr.case_variant keyword typed ->
  suggest_category typed = category.
Proof.
  intros Hin Hk Hv. unfold suggest_category.
  rewrite (PyStrFacts.case_variant_lower _ _ Hv).
  unfold keywords in Hin. simpl in Hin.
  repeat (destruct Hin as [Hin|Hin];
          [injection Hin as <- <-; simpl in Hk;
           repeat (destruct Hk as [<-|Hk]; [reflexivity|]); destruct Hk|]).
  destruct Hin.
Qed.

Lemma keyword_alone_gets_its_category_witness :
  suggest_category "Phone Bill" = "Bills".
Proof.
  apply (keyword_alone_gets_its_category "Bills"
           ["rent"; "utility"; "phone bill"; "electricity"] "phone bill").
  - unfold keywords. simpl. auto.
  - simpl. auto.
  - repeat (constructor; [first [left; reflexivity | right; right; reflexivity]|]).
    constructor.
Defined.

(** ** Signing in *)

Section AuthFacts.

Variable auth : Type.
Variable get_user_by_email : auth -> string -> outcome string.
Variable create_user : auth -> string -> string -> auth * outcome string.

Local Abbreviation login_page' := (login_page auth get_user_by_email create_user).
Local Abbreviation app_run' := (app_run auth get_user_by_email create_user).
Local Abbreviation app' := (app auth get_user_by_email create_user).
Local Abbreviation reachable := (reachable auth get_user_by_email create_user).
Local Abbreviation session_shape := (session_shape auth get_user_by_email).
Local Abbreviation shape_signed_in := (shape_signed_in auth get_user_by_email).

Lemma login_page_end (a : auth) (s : session_state) (c : click) :
  forall a' s' e,
    login_page' a s c = (a', s', e) ->
    (e = RerunRequested
     /\ exists email password uid,
          c = LoginClick email password
          /\ get_user_by_email a email = Returns uid
          /\ a' = a
          /\ s' = mkSession (Some true) (Some (Some uid)))
    \/ (e <> RerunRequested /\ s' = s /\ forall u, e <> ShowsDashboard u).
Proof.
  intros a' s' e H. destruct c as [|email password|email password]; simpl in H.
  - injection H as <- <- <-. right. repeat split; congruence.
  - destruct (get_user_by_email a email) as [uid|[]] eqn:E;
      injection H as <- <- <-;
      [left; split; [reflexivity|]; exists email, password, uid; auto
      |right; repeat split; congruence ..].
  - destruct (create_user a email password) as [a1 [uid|[]]];
      injection H as <- <- <-; right; repeat split; congruence.
Qed.

(** What one interaction does to a session of one of the three shapes. *)
Lemma app_step (a : auth) (s : session_state) (c : click) :
  session_shape s ->
  exists a' s' e,
    app' a s c = Ok (a', s', e)
    /\ session_shape s'
    /\ e <> RerunRequested
    /\ (forall u, e = ShowsDashboard u ->
          exists uid, u = Some uid /\ s' = mkSession (Some true) (Some (Some uid)))
    /\ (logged_in s = Some true -> a' = a /\ s' = s)
    /\ (logged_in s <> Some true -> logged_in s' = Some true ->
          exists email password uid,
            c = LoginClick email password
            /\ get_user_by_email a email = Returns uid
            /\ s' = mkSession (Some true) (Some (Some uid))
            /\ e = ShowsDashboard (Some uid)).
Proof.
  intros Hs.
  assert (Hout : forall s0,
            s0 = mkSession (Some false) (Some None) ->
            (s = fresh_session \/ s = s0) ->
            app_run' a s c
            = Ok (login_page' a s0 c)).
  { intros s0 -> [-> | ->]; reflexivity. }
  destruct Hs as [| |a1 email1 uid1 H1].
  - (* untouched *)
    unfold app.
    rewrite (Hout _ eq_refl (or_introl eq_refl)). cbn [bind].
    destruct (login_page' a (mkSession (Some false) (Some None)) c)
      as [[a' s'] e] eqn:El.
    destruct (login_page_end _ _ _ _ _ _ El)
      as [(-> & email & password & uid & -> & Hg & -> & ->)|(Hne & -> & Hnd)].
    + exists a, (mkSession (Some true) (Some (Some uid))), (ShowsDashboard (Some uid)).
      split; [reflexivity|]. split; [now apply (shape_signed_in a email)|].
      split; [discriminate|]. split; [intros u Hu; injection Hu as <-; eauto|].
      split; [discriminate|]. intros _ _. exists email, password, uid. auto.
    + exists a', (mkSession (Some false) (Some None)), e.
      split; [destruct e; congruence|]. split; [constructor|].
      split; [exact Hne|]. split; [intros u Hu; elim (Hnd u Hu)|].
      split; [discriminate|]. intros _ Hl. discriminate Hl.
  - (* signed out *)
    unfold app.
    rewrite (Hout _ eq_refl (or_intror eq_refl)). cbn [bind].
    destruct (login_page' a (mkSession (Some false) (Some None)) c)
      as [[a' s'] e] eqn:El.
    destruct (login_page_end _ _ _ _ _ _ El)
      as [(-> & email & password & uid & -> & Hg & -> & ->)|(Hne & -> & Hnd)].
    + exists a, (mkSession (Some true) (Some (Some uid))), (ShowsDashboard (Some uid)).
      split; [reflexivity|]. split; [now apply (shape_signed_in a email)|].
      split; [discriminate|]. split; [intros u Hu; injection Hu as <-; eauto|].
      split; [discriminate|]. intros _ _. exists email, password, uid. auto.
    + exists a', (mkSession (Some false) (Some None)), e.
      split; [destruct e; congruence|]. split; [constructor|].
      split; [exact Hne|]. split; [intros u Hu; elim (Hnd u Hu)|].
      split; [discriminate|]. intros _ Hl. discriminate Hl.
  - (* signed in *)
    exists a, (mkSession (Some true) (Some (Some uid1))), (ShowsDashboard (Some uid1)).
    split; [reflexivity|]. split; [now apply (shape_signed_in a1 email1)|].
    split; [discriminate|]. split; [intros u Hu; injection Hu as <-; eauto|].
    split; [auto|]. intros Hn. now elim Hn.
Qed.

Lemma reachable_shape (a0 a : auth) (s : session_state) :
  reachable a0 a s -> session_shape s.
Proof.
  induction 1 as [|a s c a' s' e _ IH Hrun]; [constructor|].
  destruct (app_step a s c IH) as (a1 & s1 & e1 & E & Hshape & _).
  rewrite E in Hrun. now injection Hrun as <- <- <-.
Qed.

(** Signing in asks for no password: on a session that is not signed in,
    a click on Login with the e-mail of an account opens that account's
    dashboard, whatever was typed as password. *)
Theorem login_needs_no_password (a0 a : auth) (s : session_state)
    (email password uid : string) :
  reachable a0 a s ->
  logged_in s <> Some true ->
  get_user_by_email a email = Returns uid ->
  app' a s (LoginClick email password)
  = Ok (a, mkSession (Some true) (Some (Some uid)), ShowsDashboard (Some uid)).
Proof.
  intros Hr Hn Hg. apply reachable_shape in Hr.
  destruct Hr as [| |a1 email1 uid1 H1]; [| |now elim Hn];
    unfold app, app_run, login_page;
    cbn [logged_in user_id bind]; rewrite Hg; reflexivity.
Qed.

(** Every session a browser tab gets into runs [app] without an
    exception of the script's own; it never ends waiting for a rerun; a
    dashboard is only ever shown for a user id, never for [None]; a
    signed-in session stays as it is, there being no way to sign out; and
    the only way in is a Login click with the e-mail of an account. *)
Theorem sessions_are_sound (a0 a : auth) (s : session_state) (c : click) :
  reachable a0 a s ->
  exists a' s' e,
    app' a s c = Ok (a', s', e)
    /\ e <> RerunRequested
    /\ (forall u, e = ShowsDashboard u ->
          exists uid, u = Some uid /\ get_current_user_id s' = Some uid)
    /\ (logged_in s = Some true -> a' = a /\ s' = s)
    /\ (logged_in s <> Some true -> logged_in s' = Some true ->
          exists email password uid,
            c = LoginClick email password
            /\ get_user_by_email a email = Returns uid
            /\ get_current_user_id s' = Some uid).
Proof.
  intros Hr. apply reachable_shape in Hr.
  destruct (app_step a s c Hr) as (a' & s' & e & E & _ & Hne & Hd & Hin & Hlog).
  exists a', s', e. split; [exact E|]. split; [exact Hne|].
  split; [|split; [exact Hin|]].
  - intros u Hu. destruct (Hd u Hu) as (uid & -> & ->). now exists uid.
  - intros Hn Hl. destruct (Hlog Hn Hl) as (email & password & uid & -> & Hg & -> & _).
    exists email, password, uid. auto.
Qed.

End AuthFacts.

(** A service with one account, for the instances below. *)
Lemma login_needs_no_password_witness :
  let get := fun (_ : unit) (email : string) =>
               if String.eqb email "a@b.c" then Returns "u1"
               else Raises FirebaseError in
  let create := fun (_ : unit) (_ _ : string) => (tt, @Raises string FirebaseError) in
  app unit get create tt fresh_session (LoginClick "a@b.c" "not the password")
  = Ok (tt, mkSession (Some true) (Some (Some "u1")), ShowsDashboard (Some "u1")).
Proof.
  intros get create.
  apply (login_needs_no_password unit get create tt tt fresh_session
           "a@b.c" "not the password" "u1").
  - constructor.
  - discriminate.
  - reflexivity.
Defined.

Lemma sessions_are_sound_witness :
  let get := fun (_ : unit) (email : string) =>
               if String.eqb email "a@b.c" then Returns "u1"
               else Raises FirebaseError in
  let create := fun (_ : unit) (_ _ : string) => (tt, @Raises string FirebaseError) in
  exists a' s' e,
    app unit get create tt fresh_session (CreateAccountClick "x@y.z" "secret") = Ok (a', s', e)
    /\ e <> RerunRequested.
Proof.
  intros get create.
  destruct (sessions_are_sound unit get create tt tt fresh_session
              (CreateAccountClick "x@y.z" "secret") (reachable_fresh _ _ _ _))
    as (a' & s' & e & E & Hne & _).
  exists a', s', e. split; assumption.
Defined.
